(** * Course catalog service (app.py): store and traced request pipeline

    A shallow embedding of [app.py]: the flat-file catalog store
    ([load_courses], [save_courses]) and the Flask handlers with their
    OpenTelemetry span trees ([course_catalog], [add_course],
    [course_details], [manual_trace]).

    Conventions of the embedding.
    - A Python [str] is a list of Unicode code points.
    - The backing file holds either the value [json.load] returns for it or
      a text [json.load] rejects; [json.dump] followed by [json.load] is the
      identity on the values the handlers write (lists of dicts of strings).
    - Handlers are functions of an explicit world: the file system, the
      clock, the span store with the stack of current spans, the flashed
      messages and the application log.
    - Python exceptions are the [Raise] results of a state-and-error monad. *)

From Stdlib Require Import String Ascii.
From Stdlib Require Import List ZArith NArith Lia Bool Arith.
Import ListNotations.

Set Warnings "-register-all".
Local Open Scope list_scope.

(** ** Strings *)

Definition pystr := list N.

(** A string literal of the source, as code points. *)
Definition lit (s : string) : pystr := map N_of_ascii (list_ascii_of_string s).

Fixpoint pystr_eqb (a b : pystr) : bool :=
  match a, b with
  | [], [] => true
  | x :: a', y :: b' => N.eqb x y && pystr_eqb a' b'
  | _, _ => false
  end.

(** [str.isspace] on one code point (the table of CPython's
    [_PyUnicode_IsWhitespace]). *)
Definition py_isspace (c : N) : bool :=
  ((9 <=? c) && (c <=? 13) || (28 <=? c) && (c <=? 32)
   || (c =? 133) || (c =? 160) || (c =? 5760)
   || (8192 <=? c) && (c <=? 8202)
   || (c =? 8232) || (c =? 8233) || (c =? 8239) || (c =? 8287)
   || (c =? 12288))%N.

Fixpoint lstrip (s : pystr) : pystr :=
  match s with
  | [] => []
  | c :: r => if py_isspace c then lstrip r else s
  end.

Definition rstrip (s : pystr) : pystr := rev (lstrip (rev s)).

(** [s.strip()] *)
Definition strip (s : pystr) : pystr := rstrip (lstrip s).

(** [sep.join(parts)] *)
Fixpoint join (sep : pystr) (parts : list pystr) : pystr :=
  match parts with
  | [] => []
  | [p] => p
  | p :: rest => p ++ sep ++ join sep rest
  end.

(** ** Python values read from and written to the catalog file *)

Inductive pynum :=
| PyInt (z : Z)
| PyFloat (bits : N).

Inductive pyval :=
| PNone
| PBool (b : bool)
| PNum (n : pynum)
| PStr (s : pystr)
| PList (l : list pyval)
| PDict (d : list (pystr * pyval)).

(** A [dict] with [str] keys: its items in insertion order, keys distinct. *)
Definition alist (V : Type) : Type := list (pystr * V).

(** [d.get(k)] *)
Fixpoint alist_get {V} (d : alist V) (k : pystr) : option V :=
  match d with
  | [] => None
  | (k', v) :: r => if pystr_eqb k' k then Some v else alist_get r k
  end.

(** [d[k] = v]: overwrite in place, or insert at the end. *)
Fixpoint alist_set {V} (d : alist V) (k : pystr) (v : V) : alist V :=
  match d with
  | [] => [(k, v)]
  | (k', v') :: r =>
      if pystr_eqb k' k then (k', v) :: r else (k', v') :: alist_set r k v
  end.

(** Truth value of a Python object ([not value], [if not course]). *)
Definition py_truthy (v : pyval) : bool :=
  match v with
  | PNone => false
  | PBool b => b
  | PNum (PyInt z) => negb (Z.eqb z 0)
  | PNum (PyFloat bits) =>
      (* +0.0 and -0.0 are the two false floats *)
      negb (N.eqb bits 0 || N.eqb bits (N.shiftl 1 63))
  | PStr s => match s with [] => false | _ => true end
  | PList l => match l with [] => false | _ => true end
  | PDict d => match d with [] => false | _ => true end
  end.

Definition py_type_name (v : pyval) : pystr :=
  match v with
  | PNone => lit "NoneType"
  | PBool _ => lit "bool"
  | PNum (PyInt _) => lit "int"
  | PNum (PyFloat _) => lit "float"
  | PStr _ => lit "str"
  | PList _ => lit "list"
  | PDict _ => lit "dict"
  end.

(** [v == s] for a [str] [s]. *)
Definition py_eq_str (v : pyval) (s : pystr) : bool :=
  match v with
  | PStr t => pystr_eqb t s
  | _ => false
  end.

(** ** Exceptions and the state-and-error monad *)

(** The exception classes the modelled code can raise, all subclasses of
    [Exception]; each carries [str(e)]. *)
Inductive exn :=
| OSError (msg : pystr)
| JSONDecodeError (msg : pystr)
| AttributeError (msg : pystr)
| TypeError (msg : pystr)
| KeyError (msg : pystr).

(** [str(e)] *)
Definition exn_str (e : exn) : pystr :=
  match e with
  | OSError m | JSONDecodeError m | AttributeError m | TypeError m
  | KeyError m => m
  end.

(** [type(e).__name__] *)
Definition exn_type (e : exn) : pystr :=
  match e with
  | OSError _ => lit "OSError"
  | JSONDecodeError _ => lit "JSONDecodeError"
  | AttributeError _ => lit "AttributeError"
  | TypeError _ => lit "TypeError"
  | KeyError _ => lit "KeyError"
  end.

Inductive result (A : Type) :=
| Ok (a : A)
| Raise (e : exn).
Arguments Ok {A} a.
Arguments Raise {A} e.

Definition M (S A : Type) : Type := S -> result A * S.

Definition ret {S A} (a : A) : M S A := fun s => (Ok a, s).

Definition raise {S A} (e : exn) : M S A := fun s => (Raise e, s).

Definition bind {S A B} (m : M S A) (k : A -> M S B) : M S B :=
  fun s =>
    match m s with
    | (Ok a, s') => k a s'
    | (Raise e, s') => (Raise e, s')
    end.

(** [try: m except Exception as e: h e] *)
Definition try_except {S A} (m : M S A) (h : exn -> M S A) : M S A :=
  fun s =>
    match m s with
    | (Ok a, s') => (Ok a, s')
    | (Raise e, s') => h e s'
    end.

(** A pure step that may raise. *)
Definition lift_result {S A} (r : result A) : M S A := fun s => (r, s).

Declare Scope monad_scope.
Delimit Scope monad_scope with monad.
Notation "x <- m ;; k" := (bind m (fun x => k))
  (at level 61, m at next level, right associativity) : monad_scope.
Notation "m ;; k" := (bind m (fun _ => k))
  (at level 61, right associativity) : monad_scope.
Local Open Scope monad_scope.

(** ** The catalog store *)

(** Contents of [COURSE_FILE]: a text [json.load] rejects (with the message
    of the error it raises), or the value [json.load] returns. *)
Inductive content :=
| Malformed (msg : pystr)
| Parsed (v : pyval).

(** How writing the file fails, when it does: [open(.., 'w')] raises and
    the file is untouched, or the file is truncated by [open] and
    [json.dump] raises, leaving [partial] behind. *)
Inductive write_fault :=
| OpenFails (msg : pystr)
| DumpFails (msg : pystr) (partial : content).

(** The process environment of the store: the file, the I/O errors the
    operating system will answer with, and standard output. *)
Record env := mk_env {
  file : option content;
  read_err : option pystr;
  write_err : option write_fault;
  stdout : list pystr
}.

Definition set_file (f : option content) (e : env) : env :=
  mk_env f (read_err e) (write_err e) (stdout e).

(** [print(s)] *)
Definition print (s : pystr) : M env unit :=
  fun e => (Ok tt, mk_env (file e) (read_err e) (write_err e) (stdout e ++ [s])).

(** [with open(COURSE_FILE, 'r') as file: return json.load(file)] *)
Definition read_json : M env pyval :=
  fun e =>
    match read_err e with
    | Some msg => (Raise (OSError msg), e)
    | None =>
        match file e with
        | None => (Raise (OSError (lit "[Errno 2] No such file or directory: 'course_catalog.json'")), e)
        | Some (Malformed msg) => (Raise (JSONDecodeError msg), e)
        | Some (Parsed v) => (Ok v, e)
        end
    end.

(** [with open(COURSE_FILE, 'w') as file: json.dump(v, file, indent = 4)] *)
Definition write_json (v : pyval) : M env unit :=
  fun e =>
    match write_err e with
    | Some (OpenFails msg) => (Raise (OSError msg), e)
    | Some (DumpFails msg partial) => (Raise (OSError msg), set_file (Some partial) e)
    | None => (Ok tt, set_file (Some (Parsed v)) e)
    end.

(** [os.path.exists(COURSE_FILE)] *)
Definition path_exists : M env bool :=
  fun e => (Ok (match file e with Some _ => true | None => false end), e).

Definition load_courses : M env pyval :=
  ex <- path_exists ;;
  if negb ex then
    print (lit "file not found") ;;
    ret (PList [])
  else read_json.

(** [courses.append(data)]: only a list has the method. *)
Definition py_append (courses data : pyval) : result pyval :=
  match courses with
  | PList l => Ok (PList (l ++ [data]))
  | _ => Raise (AttributeError
                  (lit "'" ++ py_type_name courses ++ lit "' object has no attribute 'append'"))
  end.

Definition save_courses (data : pyval) : M env unit :=
  courses <- load_courses ;;
  courses <- lift_result (py_append courses data) ;;
  write_json courses.

(** ** Spans and the tracer *)

Inductive attr_value :=
| AStr (s : pystr)
| ABool (b : bool)
| AInt (z : Z)
| AJson (d : alist pystr).   (* the string [json.dumps(d)], kept unserialized *)

Record event := mk_event {
  ev_name : pystr;
  ev_attrs : alist attr_value;
  ev_time : Z
}.

Inductive span_kind := INTERNAL | SERVER.

Inductive status :=
| StatusUnset
| StatusError (description : pystr).

Record span := mk_span {
  sp_name : pystr;
  sp_kind : span_kind;
  sp_parent : option nat;
  sp_start : Z;
  sp_end : option Z;
  sp_attrs : alist attr_value;
  sp_events : list event;
  sp_status : status
}.

(** The world a handler runs in.  [w_clock n] is the [n]-th reading of the
    time source and [w_ticks] the number of readings taken so far; a span
    is named by its position in [w_spans]; [w_stack] is the stack of
    current spans, innermost first. *)
Record world := mk_world {
  w_env : env;
  w_clock : nat -> Z;
  w_ticks : nat;
  w_spans : list span;
  w_stack : list nat;
  w_flashes : list (pystr * pystr);
  w_log : list pystr
}.

Definition lift_env {A} (m : M env A) : M world A :=
  fun w =>
    let (r, e) := m (w_env w) in
    (r, mk_world e (w_clock w) (w_ticks w) (w_spans w) (w_stack w)
          (w_flashes w) (w_log w)).

(** One reading of the clock. *)
Definition now : M world Z :=
  fun w =>
    (Ok (w_clock w (w_ticks w)),
     mk_world (w_env w) (w_clock w) (S (w_ticks w)) (w_spans w) (w_stack w)
       (w_flashes w) (w_log w)).

Definition set_spans (l : list span) (w : world) : world :=
  mk_world (w_env w) (w_clock w) (w_ticks w) l (w_stack w) (w_flashes w)
    (w_log w).

Definition set_stack (k : list nat) (w : world) : world :=
  mk_world (w_env w) (w_clock w) (w_ticks w) (w_spans w) k (w_flashes w)
    (w_log w).

(** [l[i] = f(l[i])]; nothing happens out of range. *)
Fixpoint upd {A} (i : nat) (f : A -> A) (l : list A) : list A :=
  match l, i with
  | [], _ => []
  | x :: r, O => f x :: r
  | x :: r, S j => x :: upd j f r
  end.

(** A call on the span object [id]; an ended span ignores it. *)
Definition on_span (id : nat) (f : span -> span) : M world unit :=
  fun w =>
    (Ok tt,
     set_spans
       (upd id (fun s => match sp_end s with Some _ => s | None => f s end)
          (w_spans w)) w).

(** [span.set_attribute(k, v)] *)
Definition set_attribute (id : nat) (k : pystr) (v : attr_value) : M world unit :=
  on_span id (fun s =>
    mk_span (sp_name s) (sp_kind s) (sp_parent s) (sp_start s) (sp_end s)
      (alist_set (sp_attrs s) k v) (sp_events s) (sp_status s)).

(** [span.add_event(name, attrs)] *)
Definition add_event (id : nat) (name : pystr) (attrs : alist attr_value) : M world unit :=
  t <- now ;;
  on_span id (fun s =>
    mk_span (sp_name s) (sp_kind s) (sp_parent s) (sp_start s) (sp_end s)
      (sp_attrs s) (sp_events s ++ [mk_event name attrs t]) (sp_status s)).

(** [span.set_status(Status(StatusCode.ERROR, d))] *)
Definition set_status_error (id : nat) (d : pystr) : M world unit :=
  on_span id (fun s =>
    mk_span (sp_name s) (sp_kind s) (sp_parent s) (sp_start s) (sp_end s)
      (sp_attrs s) (sp_events s) (StatusError d)).

(** Entering [with tracer.start_as_current_span(name, kind = kind)]: the
    new span is a child of the current span and becomes the current one. *)
Definition start_span (name : pystr) (kind : span_kind) : M world nat :=
  t <- now ;;
  fun w =>
    let id := length (w_spans w) in
    (Ok id,
     set_stack (id :: w_stack w)
       (set_spans
          (w_spans w ++
           [mk_span name kind (hd_error (w_stack w)) t None [] [] StatusUnset])
          w)).

(** Detaching the context on leaving the block. *)
Definition detach : M world unit :=
  fun w => (Ok tt, set_stack (tl (w_stack w)) w).

(** [span.end()] *)
Definition end_span (id : nat) : M world unit :=
  t <- now ;;
  on_span id (fun s =>
    mk_span (sp_name s) (sp_kind s) (sp_parent s) (sp_start s) (Some t)
      (sp_attrs s) (sp_events s) (sp_status s)).

(** [span.record_exception(e)]: an event named "exception" with the type
    and the message of [e] (the stack trace is left out). *)
Definition record_exception (id : nat) (e : exn) : M world unit :=
  add_event id (lit "exception")
    [(lit "exception.type", AStr (exn_type e));
     (lit "exception.message", AStr (exn_str e))].

(** [with tracer.start_as_current_span(name, kind = kind) as span: body span].
    With the tracer's defaults ([record_exception] and
    [set_status_on_exception] both true, [end_on_exit] true) an exception
    leaving the block is recorded on the span, the span's status becomes
    ERROR, the span is ended and the exception travels on. *)
Definition with_span {A} (name : pystr) (kind : span_kind)
    (body : nat -> M world A) : M world A :=
  span <- start_span name kind ;;
  fun w =>
    match body span w with
    | (Ok a, w1) =>
        (detach ;; end_span span ;; ret a) w1
    | (Raise e, w1) =>
        (detach ;;
         record_exception span e ;;
         set_status_error span (exn_type e ++ lit ": " ++ exn_str e) ;;
         end_span span ;;
         raise e) w1
    end.

(** ** Requests, responses and the Flask helpers *)

Record request := mk_request {
  method : pystr;
  remote_addr : option pystr;
  url : pystr;
  form : list (pystr * pystr)    (* a MultiDict: fields in submission order *)
}.

(** [request.form.get(field, default)]: the first value of the field. *)
Fixpoint form_get (f : list (pystr * pystr)) (field default : pystr) : pystr :=
  match f with
  | [] => default
  | (k, v) :: r => if pystr_eqb k field then v else form_get r field default
  end.

Inductive response :=
| Render (template : pystr) (context : alist pyval)   (* render_template *)
| Redirect (endpoint : pystr)                         (* redirect(url_for(..)) *)
| Text (body : pystr) (code : Z).

Definition render_template (template : pystr) (context : alist pyval) : M world response :=
  ret (Render template context).

(** [flash(message, category)] *)
Definition flash (message category : pystr) : M world unit :=
  fun w =>
    (Ok tt,
     mk_world (w_env w) (w_clock w) (w_ticks w) (w_spans w) (w_stack w)
       (w_flashes w ++ [(category, message)]) (w_log w)).

(** [app.logger.error(message)] *)
Definition logger_error (message : pystr) : M world unit :=
  fun w =>
    (Ok tt,
     mk_world (w_env w) (w_clock w) (w_ticks w) (w_spans w) (w_stack w)
       (w_flashes w) (w_log w ++ [message])).

(** [span.set_attribute("user.ip", request.remote_addr)]: the tracer drops
    an attribute whose value is [None]. *)
Definition set_attribute_opt (id : nat) (k : pystr) (v : option pystr) : M world unit :=
  match v with
  | Some s => set_attribute id k (AStr s)
  | None => ret tt
  end.

(** ** Operations on Python values used by the handlers *)

(** [iter(v)]: the elements a [for] over [v] visits. *)
Definition py_iter (v : pyval) : result (list pyval) :=
  match v with
  | PList l => Ok l
  | PDict d => Ok (map (fun kv => PStr (fst kv)) d)
  | PStr s => Ok (map (fun c => PStr [c]) s)
  | _ => Raise (TypeError (lit "'" ++ py_type_name v ++ lit "' object is not iterable"))
  end.

(** [len(v)] *)
Definition py_len (v : pyval) : result Z :=
  match v with
  | PList l => Ok (Z.of_nat (length l))
  | PDict d => Ok (Z.of_nat (length d))
  | PStr s => Ok (Z.of_nat (length s))
  | _ => Raise (TypeError (lit "object of type '" ++ py_type_name v ++ lit "' has no len()"))
  end.

(** [d[k]] on a dict *)
Definition dict_getitem {V} (d : alist V) (k : pystr) : result V :=
  match alist_get d k with
  | Some v => Ok v
  | None => Raise (KeyError (lit "'" ++ k ++ lit "'"))
  end.

(** [v[k]] for a [str] key [k] *)
Definition py_getitem (v : pyval) (k : pystr) : result pyval :=
  match v with
  | PDict d => dict_getitem d k
  | PList _ => Raise (TypeError (lit "list indices must be integers or slices, not str"))
  | PStr _ => Raise (TypeError (lit "string indices must be integers, not 'str'"))
  | _ => Raise (TypeError (lit "'" ++ py_type_name v ++ lit "' object is not subscriptable"))
  end.

(** [next((course for course in courses if course['code'] == code), None)]
    over the elements of [courses]. *)
Fixpoint first_with_code (courses : list pyval) (code : pystr) : result (option pyval) :=
  match courses with
  | [] => Ok None
  | course :: rest =>
      match py_getitem course (lit "code") with
      | Raise e => Raise e
      | Ok v => if py_eq_str v code then Ok (Some course)
                else first_with_code rest code
      end
  end.

Definition find_course (courses : pyval) (code : pystr) : result (option pyval) :=
  match py_iter courses with
  | Raise e => Raise e
  | Ok l => first_with_code l code
  end.

(** ** The handlers *)

Definition FIELDS : list pystr :=
  [lit "code"; lit "name"; lit "instructor"; lit "semester"; lit "schedule";
   lit "classroom"; lit "prerequisites"; lit "grading"; lit "description"].

(** [{field: request.form.get(field, '').strip() for field in FIELDS}] *)
Definition parse_form (f : list (pystr * pystr)) : alist pystr :=
  fold_left
    (fun course field => alist_set course field (strip (form_get f field (lit ""))))
    FIELDS [].

(** [not value] for a [str] *)
Definition is_empty (s : pystr) : bool :=
  match s with
  | [] => true
  | _ :: _ => false
  end.

(** [[key for key, value in course.items() if not value]] *)
Definition missing_fields_of (course : alist pystr) : list pystr :=
  map fst (filter (fun kv => is_empty (snd kv)) course).

(** The course dict as the value handed to [save_courses]. *)
Definition py_of_course (course : alist pystr) : pyval :=
  PDict (map (fun kv => (fst kv, PStr (snd kv))) course).

Definition index (req : request) : M world response :=
  render_template (lit "index.html") [].

Definition course_catalog (req : request) : M world response :=
  with_span (lit "Render course catalog") INTERNAL (fun span =>
    set_attribute span (lit "http.method") (AStr (method req)) ;;
    set_attribute_opt span (lit "user.ip") (remote_addr req) ;;
    courses <- lift_env load_courses ;;
    n <- lift_result (py_len courses) ;;
    set_attribute span (lit "courses.count") (AInt n) ;;
    render_template (lit "course_catalog.html") [(lit "courses", courses)]).

(** The "Handle Form Data" block. *)
Definition handle_form_data (req : request) : M world (alist pystr) :=
  with_span (lit "Handle Form Data") INTERNAL (fun form_span =>
    let course := parse_form (form req) in
    set_attribute form_span (lit "form.data_received") (AJson course) ;;
    ret course).

(** The "Validate Form Data" block: [Some r] when the block returns [r]
    from the handler, [None] when control falls through to the save step. *)
Definition validate_form_data (course : alist pystr) : M world (option response) :=
  with_span (lit "Validate Form Data") INTERNAL (fun validation_span =>
    let missing_fields := missing_fields_of course in
    match missing_fields with
    | _ :: _ =>
        let error_message := lit "Missing fields: " ++ join (lit ", ") missing_fields in
        set_attribute validation_span (lit "error") (ABool true) ;;
        add_event validation_span (lit "Validation Error")
          [(lit "missing_fields", AStr (join (lit ", ") missing_fields));
           (lit "message", AStr error_message)] ;;
        flash error_message (lit "error") ;;
        r <- render_template (lit "add_course.html") [] ;;
        ret (Some r)
    | [] => ret None
    end).

(** The "Save Course Data" block. *)
Definition save_course_data (course : alist pystr) : M world unit :=
  with_span (lit "Save Course Data") INTERNAL (fun save_span =>
    try_except
      (lift_env (save_courses (py_of_course course)) ;;
       code <- lift_result (dict_getitem course (lit "code")) ;;
       add_event save_span (lit "Course saved successfully")
         [(lit "course_code", AStr code)])
      (fun e =>
         let error_message := lit "Failed to save course: " ++ exn_str e in
         set_attribute save_span (lit "error") (ABool true) ;;
         add_event save_span (lit "Database Error")
           [(lit "message", AStr error_message)] ;;
         raise e)).

(** The handler of the outer [except Exception as e] of [add_course]. *)
Definition unhandled (span : nat) (e : exn) : M world response :=
  let error_message := lit "Unexpected error occurred: " ++ exn_str e in
  set_attribute span (lit "error") (ABool true) ;;
  add_event span (lit "Unhandled Exception") [(lit "message", AStr error_message)] ;;
  logger_error error_message ;;
  flash (lit "An unexpected error occurred. Please try again later.") (lit "error") ;;
  render_template (lit "add_course.html") [].

Definition add_course (req : request) : M world response :=
  with_span (lit "Add Course Operation") INTERNAL (fun span =>
    try_except
      (set_attribute span (lit "http.method") (AStr (method req)) ;;
       set_attribute span (lit "http.route") (AStr (lit "/add_course")) ;;
       if pystr_eqb (method req) (lit "POST") then
         course <- handle_form_data req ;;
         returned <- validate_form_data course ;;
         match returned with
         | Some r => ret r
         | None =>
             save_course_data course ;;
             name <- lift_result (dict_getitem course (lit "name")) ;;
             flash (lit "Course '" ++ name ++ lit "' added successfully!")
               (lit "success") ;;
             ret (Redirect (lit "course_catalog"))
         end
       else
         add_event span (lit "Rendered course addition form") [] ;;
         render_template (lit "add_course.html") [])
      (unhandled span)).

Definition course_details (code : pystr) (req : request) : M world response :=
  with_span (lit "Course Code: " ++ code) INTERNAL (fun span =>
    set_attribute span (lit "http.method") (AStr (method req)) ;;
    set_attribute_opt span (lit "user.ip") (remote_addr req) ;;
    courses <- lift_env load_courses ;;
    course <- lift_result (find_course courses code) ;;
    match course with
    | Some c =>
        if negb (py_truthy c) then
          flash (lit "No course found with code '" ++ code ++ lit "'.") (lit "error") ;;
          ret (Redirect (lit "course_catalog"))
        else render_template (lit "course_details.html") [(lit "course", c)]
    | None =>
        flash (lit "No course found with code '" ++ code ++ lit "'.") (lit "error") ;;
        ret (Redirect (lit "course_catalog"))
    end).

Definition manual_trace (req : request) : M world response :=
  with_span (lit "manual-span") SERVER (fun span =>
    set_attribute span (lit "http.method") (AStr (method req)) ;;
    set_attribute span (lit "http.url") (AStr (url req)) ;;
    add_event span (lit "Processing request") [] ;;
    ret (Text (lit "Manual trace recorded!") 200)).

Definition auto_instrumented (req : request) : M world response :=
  ret (Text (lit "This route is auto-instrumented!") 200).

(** The routes of the application. *)
Inductive operation :=
| OpIndex
| OpCourseCatalog
| OpAddCourse
| OpCourseDetails (code : pystr)
| OpManualTrace
| OpAutoInstrumented.

Definition handle (op : operation) (req : request) : M world response :=
  match op with
  | OpIndex => index req
  | OpCourseCatalog => course_catalog req
  | OpAddCourse => add_course req
  | OpCourseDetails code => course_details code req
  | OpManualTrace => manual_trace req
  | OpAutoInstrumented => auto_instrumented req
  end.

(** ** Views used by the statements *)

(** The catalog a file state stands for: no file is the empty catalog, a
    file holding a list is that list; anything else is no catalog. *)
Definition catalog (e : env) : option (list pyval) :=
  match file e with
  | None => Some []
  | Some (Parsed (PList l)) => Some l
  | Some _ => None
  end.

(** The operating system answers reads and writes of the file normally. *)
Definition io_ok (e : env) : Prop :=
  read_err e = None /\ write_err e = None.

(** Empty or made of whitespace only. *)
Definition blank (s : pystr) : Prop := forallb py_isspace s = true.

(** The value a form submits for a field, [''] when the key is absent. *)
Definition submitted (req : request) (field : pystr) : pystr :=
  form_get (form req) field (lit "").

(** No pair of the form has the key. *)
Definition absent (field : pystr) (f : list (pystr * pystr)) : Prop :=
  forall v, ~ In (field, v) f.

Definition carries_event (s : span) (name : pystr) (attrs : alist attr_value) : Prop :=
  exists ev, In ev (sp_events s) /\ ev_name ev = name /\ ev_attrs ev = attrs.

Definition has_attr (s : span) (k : pystr) (v : attr_value) : Prop :=
  alist_get (sp_attrs s) k = Some v.

(** A record of the catalog whose [code] differs from the key. *)
Definition other_code (code : pystr) (d : pyval) : Prop :=
  exists v, py_getitem d (lit "code") = Ok v /\ py_eq_str v code = false.

(** The attributes the listing and the lookup put on their span. *)
Definition request_attrs (req : request) : alist attr_value :=
  match remote_addr req with
  | Some a => [(lit "http.method", AStr (method req)); (lit "user.ip", AStr a)]
  | None => [(lit "http.method", AStr (method req))]
  end.

(** Successive readings of the clock never decrease. *)
Definition monotone (c : nat -> Z) : Prop :=
  forall n m, n <= m -> (c n <= c m)%Z.

(** The spans [new], stored from position [base] on, are one finished
    tree under the context [ctx]: every span has ended, no earlier than it
    started; the first one is the root, opened in the context [ctx]; every
    other one has its parent among the earlier ones of [new] and its
    interval inside the parent's. *)
Definition span_tree (base : nat) (ctx : option nat) (new : list span) : Prop :=
  forall i s, nth_error new i = Some s ->
    exists e, sp_end s = Some e /\ (sp_start s <= e)%Z /\
      match i with
      | O => sp_parent s = ctx
      | S _ =>
          exists p ps pe,
            p < i /\ sp_parent s = Some (base + p) /\
            nth_error new p = Some ps /\ sp_end ps = Some pe /\
            (sp_start ps <= sp_start s)%Z /\ (e <= pe)%Z
      end.

(** ** Scenario data *)

(** The record of the scenario of the specification, as a submitted form
    and as the value stored for it. *)
Definition cs101_form : list (pystr * pystr) :=
  [(lit "code", lit "CS101"); (lit "name", lit "Intro");
   (lit "instructor", lit "A"); (lit "semester", lit "F24");
   (lit "schedule", lit "MWF"); (lit "classroom", lit "101");
   (lit "prerequisites", lit "None"); (lit "grading", lit "Letter");
   (lit "description", lit "Intro course")].

Definition cs101_record : pyval :=
  PDict
    [(lit "code", PStr (lit "CS101")); (lit "name", PStr (lit "Intro"));
     (lit "instructor", PStr (lit "A")); (lit "semester", PStr (lit "F24"));
     (lit "schedule", PStr (lit "MWF")); (lit "classroom", PStr (lit "101"));
     (lit "prerequisites", PStr (lit "None"));
     (lit "grading", PStr (lit "Letter"));
     (lit "description", PStr (lit "Intro course"))].

(** A second record with the same code. *)
Definition cs101_again : pyval :=
  PDict [(lit "code", PStr (lit "CS101")); (lit "name", PStr (lit "Intro II"))].

Definition ma201_record : pyval :=
  PDict [(lit "code", PStr (lit "MA201")); (lit "name", PStr (lit "Algebra"))].

Definition post_request (f : list (pystr * pystr)) : request :=
  mk_request (lit "POST") (Some (lit "127.0.0.1"))
    (lit "http://localhost:5000/add_course") f.

Definition get_request : request :=
  mk_request (lit "GET") (Some (lit "127.0.0.1"))
    (lit "http://localhost:5000/course/CS101") [].

(** The form of the scenario without its [name] key. *)
Definition nameless_form : list (pystr * pystr) :=
  filter (fun kv => negb (pystr_eqb (fst kv) (lit "name"))) cs101_form.

Definition env_absent : env := mk_env None None None [].

Definition env_with (v : pyval) : env := mk_env (Some (Parsed v)) None None [].

(** The file exists and cannot be read. *)
Definition env_unreadable : env :=
  mk_env (Some (Parsed (PList [])))
    (Some (lit "[Errno 13] Permission denied: 'course_catalog.json'")) None [].

(** A world with no span yet and a clock that ticks once per reading. *)
Definition fresh_world (e : env) : world :=
  mk_world e (fun n => Z.of_nat n) 0 [] [] [] [].

(** ** Further views and data *)

(** The write, if it fails, fails before the file is touched. *)
Definition no_dump_fault (e : env) : Prop :=
  match write_err e with
  | Some (DumpFails _ _) => False
  | _ => True
  end.


(** A file [json.load] rejects. *)
Definition env_malformed : env :=
  mk_env (Some (Malformed (lit "Expecting value: line 1 column 1 (char 0)")))
    None None [].

(** The file holds a list and cannot be opened for writing. *)
Definition env_readonly (l : list pyval) : env :=
  mk_env (Some (Parsed (PList l))) None
    (Some (OpenFails (lit "[Errno 13] Permission denied: 'course_catalog.json'")))
    [].



(** The record [add_course] stores for a request. *)
Definition record_of (req : request) : pyval :=
  PDict (map (fun field => (field, PStr (strip (submitted req field)))) FIELDS).

(** * Properties *)

(** ** Strings and dicts *)

Lemma pystr_eqb_refl (a : pystr) : pystr_eqb a a = true.
Proof.
  induction a as [|x a IH]; simpl; [reflexivity|].
  now rewrite N.eqb_refl, IH.
Qed.

Lemma pystr_eqb_eq (a b : pystr) : pystr_eqb a b = true <-> a = b.
Proof.
  split.
  - revert b; induction a as [|x a IH]; intros [|y b] H; simpl in H;
      try discriminate; [reflexivity|].
    apply andb_true_iff in H as [Hx Hr].
    apply N.eqb_eq in Hx. apply IH in Hr. now subst.
  - intros ->. apply pystr_eqb_refl.
Qed.

Lemma pystr_eqb_neq (a b : pystr) : pystr_eqb a b = false <-> a <> b.
Proof.
  rewrite <- pystr_eqb_eq. destruct (pystr_eqb a b); intuition congruence.
Qed.

Lemma lstrip_nil_iff (s : pystr) : lstrip s = [] <-> blank s.
Proof.
  unfold blank. induction s as [|c r IH]; simpl; [tauto|].
  destruct (py_isspace c); simpl; [exact IH|].
  split; discriminate.
Qed.

Lemma lstrip_head (s r : pystr) (c : N) :
  lstrip s = c :: r -> py_isspace c = false.
Proof.
  induction s as [|x s IH]; simpl; [discriminate|].
  destruct (py_isspace x) eqn:Hx; [exact IH|].
  intros H. injection H as -> _. exact Hx.
Qed.

Lemma blank_rev (s : pystr) : blank (rev s) <-> blank s.
Proof.
  unfold blank. rewrite !forallb_forall.
  split; intros H x Hx; apply H; [now apply in_rev in Hx | now apply in_rev].
Qed.

(** [strip] leaves nothing exactly of the empty and the whitespace-only
    strings. *)
Lemma strip_nil_iff (s : pystr) : strip s = [] <-> blank s.
Proof.
  unfold strip, rstrip. split.
  - intros H. apply (f_equal (@rev N)) in H. rewrite rev_involutive in H.
    simpl in H. apply lstrip_nil_iff in H. apply (proj1 (blank_rev _)) in H.
    destruct (lstrip s) as [|c r] eqn:Hs; [now apply lstrip_nil_iff|].
    apply lstrip_head in Hs. unfold blank in H. cbn [forallb] in H.
    rewrite Hs in H. discriminate.
  - intros H. apply lstrip_nil_iff in H. now rewrite H.
Qed.

Lemma is_empty_true (s : pystr) : is_empty s = true <-> s = [].
Proof. destruct s; simpl; split; congruence. Qed.

Lemma form_get_absent (f : list (pystr * pystr)) (field default : pystr) :
  absent field f -> form_get f field default = default.
Proof.
  unfold absent. induction f as [|[k v] r IH]; intros H; simpl; [reflexivity|].
  destruct (pystr_eqb k field) eqn:Hk.
  - apply pystr_eqb_eq in Hk. subst. exfalso. apply (H v). now left.
  - apply IH. intros v' Hv'. apply (H v'). now right.
Qed.

Lemma parse_form_items (f : list (pystr * pystr)) :
  parse_form f
  = map (fun field => (field, strip (form_get f field (lit "")))) FIELDS.
Proof. reflexivity. Qed.

Lemma missing_fields_map (g : pystr -> pystr) (l : list pystr) :
  missing_fields_of (map (fun field => (field, g field)) l)
  = filter (fun field => is_empty (g field)) l.
Proof.
  unfold missing_fields_of. induction l as [|x l IH]; simpl; [reflexivity|].
  destruct (is_empty (g x)); simpl; now rewrite IH.
Qed.

(** The missing fields are the required fields whose trimmed value is
    empty, in the order of [FIELDS]. *)
Lemma missing_fields_parse (f : list (pystr * pystr)) :
  missing_fields_of (parse_form f)
  = filter (fun field => is_empty (strip (form_get f field (lit "")))) FIELDS.
Proof. rewrite parse_form_items. apply missing_fields_map. Qed.

Lemma in_missing_fields (f : list (pystr * pystr)) (field : pystr) :
  In field (missing_fields_of (parse_form f))
  <-> In field FIELDS /\ blank (form_get f field (lit "")).
Proof.
  rewrite missing_fields_parse, filter_In.
  split; intros [Hin Hb]; (split; [exact Hin|]).
  - now apply strip_nil_iff, is_empty_true.
  - now apply is_empty_true, strip_nil_iff.
Qed.

Lemma alist_get_map {V} (g : pystr -> V) (l : list pystr) (k : pystr) :
  In k l -> alist_get (map (fun field => (field, g field)) l) k = Some (g k).
Proof.
  induction l as [|x l IH]; simpl; [tauto|].
  intros [-> | H].
  - now rewrite pystr_eqb_refl.
  - destruct (pystr_eqb x k) eqn:Hx; [|now apply IH].
    apply pystr_eqb_eq in Hx. now subst.
Qed.

Lemma parse_form_get (f : list (pystr * pystr)) (field : pystr) :
  In field FIELDS ->
  alist_get (parse_form f) field = Some (strip (form_get f field (lit ""))).
Proof.
  rewrite parse_form_items.
  apply (alist_get_map (fun k => strip (form_get f k (lit "")))).
Qed.

(** ** The store *)

Lemma load_courses_absent (e : env) :
  file e = None ->
  load_courses e
  = (Ok (PList []),
     mk_env None (read_err e) (write_err e) (stdout e ++ [lit "file not found"])).
Proof.
  intros H. destruct e as [f r wr out]. simpl in H. subst f. reflexivity.
Qed.

Lemma load_courses_present (e : env) (c : content) :
  file e = Some c -> load_courses e = read_json e.
Proof.
  intros H. destruct e as [f r wr out]. simpl in H. subst f. reflexivity.
Qed.

(** What [load_courses] returns when the file stands for a catalog and can
    be read. *)
Lemma load_courses_catalog (e : env) (l : list pyval) :
  catalog e = Some l -> read_err e = None ->
  exists e', load_courses e = (Ok (PList l), e') /\ file e' = file e
             /\ read_err e' = read_err e /\ write_err e' = write_err e.
Proof.
  unfold catalog. destruct e as [f r wr out]. simpl. intros Hc ->.
  destruct f as [[msg|v]|]; try discriminate.
  - destruct v; try discriminate. injection Hc as ->.
    eexists. split; [reflexivity|]. repeat split.
  - injection Hc as <-.
    eexists. split; [reflexivity|]. repeat split.
Qed.

(** [save_courses] on a catalog, with working I/O: the file afterwards
    holds the prior sequence followed by the new record. *)
Lemma save_courses_appends (data : pyval) (e : env) (l : list pyval) :
  catalog e = Some l -> io_ok e ->
  exists e', save_courses data e = (Ok tt, e')
             /\ file e' = Some (Parsed (PList (l ++ [data]))).
Proof.
  intros Hc [Hr Hw].
  destruct (load_courses_catalog e l Hc Hr) as (e1 & Hl & _ & _ & Hw1).
  unfold save_courses, bind. rewrite Hl.
  unfold lift_result, py_append, write_json. rewrite Hw1, Hw.
  eexists; split; reflexivity.
Qed.

Lemma py_getitem_truthy (c v : pyval) (k : pystr) :
  py_getitem c k = Ok v -> py_truthy c = true.
Proof.
  destruct c as [| b | n | s | l | d]; simpl; try discriminate.
  unfold dict_getitem. destruct d; simpl; [discriminate | reflexivity].
Qed.

(** The scan stops at the first record whose code is the key, whatever
    follows it. *)
Lemma first_with_code_first (l1 l2 : list pyval) (c : pyval) (code : pystr) :
  Forall (other_code code) l1 ->
  py_getitem c (lit "code") = Ok (PStr code) ->
  first_with_code (l1 ++ c :: l2) code = Ok (Some c).
Proof.
  intros Hl Hc. induction Hl as [|d l1 (v & Hv & Hne) _ IH]; simpl.
  - rewrite Hc. simpl. now rewrite pystr_eqb_refl.
  - rewrite Hv, Hne. exact IH.
Qed.

Lemma first_with_code_none (l : list pyval) (code : pystr) :
  Forall (other_code code) l -> first_with_code l code = Ok None.
Proof.
  intros Hl. induction Hl as [|d l (v & Hv & Hne) _ IH]; simpl;
    [reflexivity|].
  now rewrite Hv, Hne.
Qed.

(** ** Running a handler on a symbolic world *)

Lemma length_upd {A} (i : nat) (f : A -> A) (l : list A) :
  length (upd i f l) = length l.
Proof. revert i; induction l as [|x l IH]; intros [|i]; simpl; auto. Qed.

Lemma upd_app_len {A} (l r : list A) (k : nat) (f : A -> A) :
  upd (length l + k) f (l ++ r) = l ++ upd k f r.
Proof. induction l as [|x l IH]; simpl; [reflexivity | now rewrite IH]. Qed.

Lemma upd_app_len0 {A} (l r : list A) (f : A -> A) :
  upd (length l) f (l ++ r) = l ++ upd 0 f r.
Proof. rewrite <- (Nat.add_0_r (length l)) at 1. apply upd_app_len. Qed.

#[local] Arguments lit : simpl never.

(** Unfold the monad, the tracer and the Flask helpers. *)
Ltac run :=
  cbv beta iota zeta delta
    [bind ret raise try_except lift_result lift_env now on_span set_attribute
     set_attribute_opt add_event set_status_error start_span detach end_span
     record_exception with_span render_template flash logger_error
     set_spans set_stack negb
     w_env w_clock w_ticks w_spans w_stack w_flashes w_log].

(** Bring the span store to the form [old ++ new], [new] explicit. *)
Ltac norm :=
  repeat first
    [ rewrite length_upd
    | rewrite <- app_assoc
    | rewrite length_app
    | rewrite <- Nat.add_assoc
    | rewrite upd_app_len
    | rewrite upd_app_len0
    | progress cbn [upd app length Nat.add hd_error tl alist_set
                    sp_name sp_kind sp_parent sp_start sp_end sp_attrs
                    sp_events sp_status]
    | match goal with
      | |- context [pystr_eqb (lit ?a) (lit ?b)] =>
          let v := eval vm_compute in (pystr_eqb (lit a) (lit b)) in
          change (pystr_eqb (lit a) (lit b)) with v
      end ].

(** *** [add_course], path by path *)

(** Any method but POST: the form is rendered. *)
Lemma add_course_get (req : request) (w : world) :
  pystr_eqb (method req) (lit "POST") = false ->
  let c := w_clock w in
  let t := w_ticks w in
  add_course req w
  = (Ok (Render (lit "add_course.html") []),
     mk_world (w_env w) c (3 + t)
       (w_spans w ++
        [mk_span (lit "Add Course Operation") INTERNAL (hd_error (w_stack w))
           (c t) (Some (c (2 + t)))
           [(lit "http.method", AStr (method req));
            (lit "http.route", AStr (lit "/add_course"))]
           [mk_event (lit "Rendered course addition form") [] (c (1 + t))]
           StatusUnset])
       (w_stack w) (w_flashes w) (w_log w)).
Proof.
  intros H. destruct w as [e c t S K F L]. unfold add_course.
  run. rewrite H. run. norm. reflexivity.
Qed.

(** POST with a missing field: the validation block returns. *)
Lemma add_course_missing (req : request) (w : world) (m : pystr) (ms : list pystr) :
  pystr_eqb (method req) (lit "POST") = true ->
  missing_fields_of (parse_form (form req)) = m :: ms ->
  let c := w_clock w in
  let t := w_ticks w in
  let root := length (w_spans w) in
  let error_message := lit "Missing fields: " ++ join (lit ", ") (m :: ms) in
  add_course req w
  = (Ok (Render (lit "add_course.html") []),
     mk_world (w_env w) c (7 + t)
       (w_spans w ++
        [mk_span (lit "Add Course Operation") INTERNAL (hd_error (w_stack w))
           (c t) (Some (c (6 + t)))
           [(lit "http.method", AStr (method req));
            (lit "http.route", AStr (lit "/add_course"))]
           [] StatusUnset;
         mk_span (lit "Handle Form Data") INTERNAL (Some root)
           (c (1 + t)) (Some (c (2 + t)))
           [(lit "form.data_received", AJson (parse_form (form req)))]
           [] StatusUnset;
         mk_span (lit "Validate Form Data") INTERNAL (Some root)
           (c (3 + t)) (Some (c (5 + t)))
           [(lit "error", ABool true)]
           [mk_event (lit "Validation Error")
              [(lit "missing_fields", AStr (join (lit ", ") (m :: ms)));
               (lit "message", AStr error_message)]
              (c (4 + t))]
           StatusUnset])
       (w_stack w)
       (w_flashes w ++ [(lit "error", error_message)])
       (w_log w)).
Proof.
  intros H Hm. destruct w as [e c t S K F L].
  unfold add_course, handle_form_data, validate_form_data.
  run. rewrite H. run. rewrite Hm. run. norm. reflexivity.
Qed.

(** POST with every field present, the store accepting the record. *)
Lemma add_course_saved (req : request) (w : world) (e' : env) :
  pystr_eqb (method req) (lit "POST") = true ->
  missing_fields_of (parse_form (form req)) = [] ->
  save_courses (py_of_course (parse_form (form req))) (w_env w) = (Ok tt, e') ->
  let c := w_clock w in
  let t := w_ticks w in
  let root := length (w_spans w) in
  add_course req w
  = (Ok (Redirect (lit "course_catalog")),
     mk_world e' c (9 + t)
       (w_spans w ++
        [mk_span (lit "Add Course Operation") INTERNAL (hd_error (w_stack w))
           (c t) (Some (c (8 + t)))
           [(lit "http.method", AStr (method req));
            (lit "http.route", AStr (lit "/add_course"))]
           [] StatusUnset;
         mk_span (lit "Handle Form Data") INTERNAL (Some root)
           (c (1 + t)) (Some (c (2 + t)))
           [(lit "form.data_received", AJson (parse_form (form req)))]
           [] StatusUnset;
         mk_span (lit "Validate Form Data") INTERNAL (Some root)
           (c (3 + t)) (Some (c (4 + t))) [] [] StatusUnset;
         mk_span (lit "Save Course Data") INTERNAL (Some root)
           (c (5 + t)) (Some (c (7 + t))) []
           [mk_event (lit "Course saved successfully")
              [(lit "course_code", AStr (strip (submitted req (lit "code"))))]
              (c (6 + t))]
           StatusUnset])
       (w_stack w)
       (w_flashes w ++
        [(lit "success",
          lit "Course '" ++ strip (submitted req (lit "name"))
          ++ lit "' added successfully!")])
       (w_log w)).
Proof.
  intros H Hm Hs. destruct w as [e c t S K F L]. cbn [w_env] in Hs.
  unfold add_course, handle_form_data, validate_form_data, save_course_data.
  run. rewrite H. run. rewrite Hm. run. rewrite Hs. run.
  change (dict_getitem (parse_form (form req)) (lit "code"))
    with (@Ok pystr (strip (submitted req (lit "code")))).
  change (dict_getitem (parse_form (form req)) (lit "name"))
    with (@Ok pystr (strip (submitted req (lit "name")))).
  run. norm. reflexivity.
Qed.

(** POST with every field present, the store raising [ex]. *)
Lemma add_course_failed (req : request) (w : world) (e' : env) (ex : exn) :
  pystr_eqb (method req) (lit "POST") = true ->
  missing_fields_of (parse_form (form req)) = [] ->
  save_courses (py_of_course (parse_form (form req))) (w_env w) = (Raise ex, e') ->
  let c := w_clock w in
  let t := w_ticks w in
  let root := length (w_spans w) in
  add_course req w
  = (Ok (Render (lit "add_course.html") []),
     mk_world e' c (11 + t)
       (w_spans w ++
        [mk_span (lit "Add Course Operation") INTERNAL (hd_error (w_stack w))
           (c t) (Some (c (10 + t)))
           [(lit "http.method", AStr (method req));
            (lit "http.route", AStr (lit "/add_course"));
            (lit "error", ABool true)]
           [mk_event (lit "Unhandled Exception")
              [(lit "message",
                AStr (lit "Unexpected error occurred: " ++ exn_str ex))]
              (c (9 + t))]
           StatusUnset;
         mk_span (lit "Handle Form Data") INTERNAL (Some root)
           (c (1 + t)) (Some (c (2 + t)))
           [(lit "form.data_received", AJson (parse_form (form req)))]
           [] StatusUnset;
         mk_span (lit "Validate Form Data") INTERNAL (Some root)
           (c (3 + t)) (Some (c (4 + t))) [] [] StatusUnset;
         mk_span (lit "Save Course Data") INTERNAL (Some root)
           (c (5 + t)) (Some (c (8 + t)))
           [(lit "error", ABool true)]
           [mk_event (lit "Database Error")
              [(lit "message",
                AStr (lit "Failed to save course: " ++ exn_str ex))]
              (c (6 + t));
            mk_event (lit "exception")
              [(lit "exception.type", AStr (exn_type ex));
               (lit "exception.message", AStr (exn_str ex))]
              (c (7 + t))]
           (StatusError (exn_type ex ++ lit ": " ++ exn_str ex))])
       (w_stack w)
       (w_flashes w ++
        [(lit "error",
          lit "An unexpected error occurred. Please try again later.")])
       (w_log w ++ [lit "Unexpected error occurred: " ++ exn_str ex])).
Proof.
  intros H Hm Hs. destruct w as [e c t S K F L]. cbn [w_env] in Hs.
  unfold add_course, handle_form_data, validate_form_data, save_course_data,
    unhandled.
  run. rewrite H. run. rewrite Hm. run. rewrite Hs. run. norm. reflexivity.
Qed.

(** ** Submitting a course *)

Lemma no_missing_fields (f : list (pystr * pystr)) :
  (forall field, In field FIELDS -> ~ blank (form_get f field (lit ""))) ->
  missing_fields_of (parse_form f) = [].
Proof.
  intros H. destruct (missing_fields_of (parse_form f)) as [|m ms] eqn:Hm;
    [reflexivity|].
  assert (Hin : In m (missing_fields_of (parse_form f)))
    by (rewrite Hm; now left).
  apply in_missing_fields in Hin as [Hf Hb]. now elim (H m Hf).
Qed.

Lemma some_missing_field (f : list (pystr * pystr)) :
  (exists field, In field FIELDS /\ blank (form_get f field (lit ""))) ->
  exists m ms, missing_fields_of (parse_form f) = m :: ms.
Proof.
  intros (field & Hf & Hb).
  assert (Hin : In field (missing_fields_of (parse_form f)))
    by (apply in_missing_fields; now split).
  destruct (missing_fields_of (parse_form f)) as [|m ms]; [elim Hin|].
  now exists m, ms.
Qed.

Lemma py_of_course_parse (f : list (pystr * pystr)) :
  py_of_course (parse_form f)
  = PDict (map (fun field => (field, PStr (strip (form_get f field (lit "")))))
             FIELDS).
Proof. reflexivity. Qed.

(** A blank value under a key the form does not have changes nothing of
    what the handler reads from the form. *)
Lemma parse_form_blank_field (f : list (pystr * pystr)) (field b : pystr) :
  absent field f -> blank b ->
  parse_form ((field, b) :: f) = parse_form f.
Proof.
  intros Ha Hb. rewrite !parse_form_items. apply map_ext. intros k.
  f_equal. cbn [form_get].
  destruct (pystr_eqb field k) eqn:Hk; [|reflexivity].
  apply pystr_eqb_eq in Hk. subst k.
  rewrite (form_get_absent f field _ Ha).
  apply strip_nil_iff in Hb. now rewrite Hb.
Qed.

(** The handler reads the form through [parse_form] alone. *)
Lemma add_course_form_only (req1 req2 : request) (w : world) :
  method req1 = method req2 ->
  parse_form (form req1) = parse_form (form req2) ->
  add_course req1 w = add_course req2 w.
Proof.
  intros Hm Hf. unfold add_course, handle_form_data. now rewrite Hm, Hf.
Qed.

(** The outer handler answers with the same response and the same flashed
    message whatever the exception is. *)
Lemma unhandled_response (span : nat) (ex : exn) (w : world) :
  fst (unhandled span ex w) = Ok (Render (lit "add_course.html") [])
  /\ w_flashes (snd (unhandled span ex w))
     = w_flashes w ++
       [(lit "error", lit "An unexpected error occurred. Please try again later.")].
Proof. destruct w. split; reflexivity. Qed.

(** C1. A POST in which at least one of the nine required fields is empty
    or whitespace only is answered with the validation failure: the form is
    rendered again, the flashed message names exactly the blank fields (in
    the order of the field list), the operation opens its root span, the
    form span and the validation span (marked as an error, with the event
    listing the missing fields) and no "Save Course Data" span, and the
    store is left as it was. *)
Theorem C1_validation_failure (req : request) (w : world) :
  method req = lit "POST" ->
  (exists field, In field FIELDS /\ blank (submitted req field)) ->
  exists (missing : list pystr) (w' : world) (root form_span validation_span : span),
    add_course req w = (Ok (Render (lit "add_course.html") []), w')
    /\ missing = filter (fun field => is_empty (strip (submitted req field))) FIELDS
    /\ (forall field,
          In field missing <-> In field FIELDS /\ blank (submitted req field))
    /\ w_flashes w'
       = w_flashes w ++
         [(lit "error", lit "Missing fields: " ++ join (lit ", ") missing)]
    /\ w_spans w' = w_spans w ++ [root; form_span; validation_span]
    /\ sp_name root = lit "Add Course Operation"
    /\ sp_name form_span = lit "Handle Form Data"
    /\ sp_name validation_span = lit "Validate Form Data"
    /\ has_attr validation_span (lit "error") (ABool true)
    /\ carries_event validation_span (lit "Validation Error")
         [(lit "missing_fields", AStr (join (lit ", ") missing));
          (lit "message",
           AStr (lit "Missing fields: " ++ join (lit ", ") missing))]
    /\ (forall s, In s [root; form_span; validation_span] ->
          sp_name s <> lit "Save Course Data")
    /\ w_env w' = w_env w.
Proof.
  intros Hpost Hblank. apply pystr_eqb_eq in Hpost.
  destruct (some_missing_field (form req) Hblank) as (m & ms & Hm).
  pose proof (add_course_missing req w m ms Hpost Hm) as Hrun.
  cbv zeta in Hrun. rewrite <- Hm in Hrun.
  exists (missing_fields_of (parse_form (form req))).
  eexists. eexists. eexists. eexists.
  split; [exact Hrun|].
  split; [apply missing_fields_parse|].
  split; [intros field; apply in_missing_fields|].
  cbn [w_flashes w_spans w_env sp_name].
  repeat match goal with |- _ /\ _ => split end; try reflexivity.
  - eexists. split; [left; reflexivity|]. split; reflexivity.
  - intros s [<-|[<-|[<-|[]]]]; cbn [sp_name]; intros Hs;
      vm_compute in Hs; discriminate.
Qed.

Lemma C1_validation_failure_witness :
  exists (missing : list pystr) (w' : world) (root form_span validation_span : span),
    add_course (post_request nameless_form) (fresh_world env_absent)
    = (Ok (Render (lit "add_course.html") []), w')
    /\ missing = [lit "name"]
    /\ w_flashes w' = [(lit "error", lit "Missing fields: name")]
    /\ w_spans w' = [root; form_span; validation_span]
    /\ w_env w' = env_absent.
Proof.
  destruct (C1_validation_failure (post_request nameless_form)
              (fresh_world env_absent))
    as (missing & w' & root & fs & vs & Hrun & Hmiss & _ & Hfl & Hsp & _ & _
        & _ & _ & _ & _ & Henv).
  - reflexivity.
  - exists (lit "name"). split; [vm_compute; tauto | reflexivity].
  - exists missing, w', root, fs, vs.
    split; [exact Hrun|].
    split; [rewrite Hmiss; reflexivity|].
    split; [rewrite Hfl, Hmiss; reflexivity|].
    split; [exact Hsp | exact Henv].
Defined.

(** C2. A POST whose nine required fields are all non-empty after trimming,
    on any prior catalog (the file absent or holding a list, the operating
    system answering the read and the write normally), is answered with the
    redirect to the catalog, and the stored sequence afterwards is the prior
    sequence followed by the one new record (the trimmed fields). *)
Theorem C2_submit_appends_one_record (req : request) (w : world) (prior : list pyval) :
  method req = lit "POST" ->
  (forall field, In field FIELDS -> strip (submitted req field) <> []) ->
  catalog (w_env w) = Some prior ->
  io_ok (w_env w) ->
  exists w',
    add_course req w = (Ok (Redirect (lit "course_catalog")), w')
    /\ catalog (w_env w')
       = Some (prior ++
               [PDict (map (fun field =>
                              (field, PStr (strip (submitted req field))))
                         FIELDS)]).
Proof.
  intros Hpost Hfields Hcat Hio. apply pystr_eqb_eq in Hpost.
  assert (Hm : missing_fields_of (parse_form (form req)) = []).
  { apply no_missing_fields. intros field Hf Hb.
    apply (Hfields field Hf). now apply strip_nil_iff. }
  destruct (save_courses_appends (py_of_course (parse_form (form req)))
              (w_env w) prior Hcat Hio) as (e' & Hsave & Hfile).
  pose proof (add_course_saved req w e' Hpost Hm Hsave) as Hrun.
  cbv zeta in Hrun. eexists. split; [exact Hrun|].
  cbn [w_env]. unfold catalog. rewrite Hfile.
  now rewrite py_of_course_parse.
Qed.

Lemma C2_submit_appends_one_record_witness :
  exists w',
    add_course (post_request cs101_form)
      (fresh_world (env_with (PList [ma201_record])))
    = (Ok (Redirect (lit "course_catalog")), w')
    /\ catalog (w_env w') = Some [ma201_record; cs101_record].
Proof.
  destruct (C2_submit_appends_one_record (post_request cs101_form)
              (fresh_world (env_with (PList [ma201_record]))) [ma201_record])
    as (w' & Hrun & Hcat).
  - reflexivity.
  - intros field Hf.
    repeat (destruct Hf as [<-|Hf]; [vm_compute; discriminate|]).
    elim Hf.
  - reflexivity.
  - split; reflexivity.
  - exists w'. split; [exact Hrun|]. rewrite Hcat. reflexivity.
Defined.

(** C4. When the store raises inside the "Save Course Data" block of a
    valid POST, the exception is first annotated on that child span (the
    error attribute and a "Database Error" event with the message), then
    handled once at the root span: the root span gets the error attribute
    and exactly one event, "Unhandled Exception", with the message, taken
    at a later clock reading than the child's; the message is logged; the
    caller gets the form again with the generic flashed message, as a
    normal result and not as an exception. *)
Theorem C4_save_exception_annotated_then_handled
    (req : request) (w : world) (ex : exn) (e' : env) :
  method req = lit "POST" ->
  (forall field, In field FIELDS -> strip (submitted req field) <> []) ->
  save_courses (py_of_course (parse_form (form req))) (w_env w) = (Raise ex, e') ->
  exists (w' : world) (root form_span validation_span save_span : span),
    add_course req w = (Ok (Render (lit "add_course.html") []), w')
    /\ w_spans w' = w_spans w ++ [root; form_span; validation_span; save_span]
    /\ sp_name save_span = lit "Save Course Data"
    /\ sp_parent save_span = Some (length (w_spans w))
    /\ has_attr save_span (lit "error") (ABool true)
    /\ In (mk_event (lit "Database Error")
             [(lit "message", AStr (lit "Failed to save course: " ++ exn_str ex))]
             (w_clock w (6 + w_ticks w)))
          (sp_events save_span)
    /\ sp_name root = lit "Add Course Operation"
    /\ has_attr root (lit "error") (ABool true)
    /\ sp_events root
       = [mk_event (lit "Unhandled Exception")
            [(lit "message",
              AStr (lit "Unexpected error occurred: " ++ exn_str ex))]
            (w_clock w (9 + w_ticks w))]
    /\ w_log w' = w_log w ++ [lit "Unexpected error occurred: " ++ exn_str ex]
    /\ w_flashes w'
       = w_flashes w ++
         [(lit "error", lit "An unexpected error occurred. Please try again later.")].
Proof.
  intros Hpost Hfields Hsave. apply pystr_eqb_eq in Hpost.
  assert (Hm : missing_fields_of (parse_form (form req)) = []).
  { apply no_missing_fields. intros field Hf Hb.
    apply (Hfields field Hf). now apply strip_nil_iff. }
  pose proof (add_course_failed req w e' ex Hpost Hm Hsave) as Hrun.
  cbv zeta in Hrun. do 5 eexists.
  split; [exact Hrun|].
  cbn [w_spans w_log w_flashes sp_name sp_parent sp_events].
  repeat match goal with |- _ /\ _ => split end; try reflexivity.
  left. reflexivity.
Qed.

Lemma C4_save_exception_annotated_then_handled_witness :
  exists (w' : world) (root save_span : span),
    add_course (post_request cs101_form) (fresh_world (env_with (PDict [])))
    = (Ok (Render (lit "add_course.html") []), w')
    /\ nth_error (w_spans w') 0 = Some root
    /\ nth_error (w_spans w') 3 = Some save_span
    /\ has_attr save_span (lit "error") (ABool true)
    /\ has_attr root (lit "error") (ABool true)
    /\ w_log w'
       = [lit "Unexpected error occurred: 'dict' object has no attribute 'append'"].
Proof.
  destruct (C4_save_exception_annotated_then_handled
              (post_request cs101_form) (fresh_world (env_with (PDict [])))
              (AttributeError (lit "'dict' object has no attribute 'append'"))
              (env_with (PDict [])))
    as (w' & root & fs & vs & ss & Hrun & Hsp & _ & _ & Hse & _ & _ & Hre & _
        & Hlog & _).
  - reflexivity.
  - intros field Hf.
    repeat (destruct Hf as [<-|Hf]; [vm_compute; discriminate|]).
    elim Hf.
  - reflexivity.
  - exists w', root, ss. rewrite Hsp, Hlog.
    repeat match goal with |- _ /\ _ => split end;
      try reflexivity; assumption.
Defined.

(** C8. Two valid POSTs whose save steps raise any two exceptions get the
    same response, the form rendered again, and the same flashed message, a
    fixed text; the text of the exception goes to the log (and to the
    spans), not to the response. *)
Theorem C8_failure_response_independent_of_exception
    (req1 req2 : request) (w1 w2 : world) (ex1 ex2 : exn) (e1 e2 : env) :
  method req1 = lit "POST" ->
  method req2 = lit "POST" ->
  (forall field, In field FIELDS -> strip (submitted req1 field) <> []) ->
  (forall field, In field FIELDS -> strip (submitted req2 field) <> []) ->
  save_courses (py_of_course (parse_form (form req1))) (w_env w1) = (Raise ex1, e1) ->
  save_courses (py_of_course (parse_form (form req2))) (w_env w2) = (Raise ex2, e2) ->
  let generic :=
    (lit "error", lit "An unexpected error occurred. Please try again later.") in
  fst (add_course req1 w1) = Ok (Render (lit "add_course.html") [])
  /\ fst (add_course req2 w2) = fst (add_course req1 w1)
  /\ w_flashes (snd (add_course req1 w1)) = w_flashes w1 ++ [generic]
  /\ w_flashes (snd (add_course req2 w2)) = w_flashes w2 ++ [generic]
  /\ w_log (snd (add_course req1 w1))
     = w_log w1 ++ [lit "Unexpected error occurred: " ++ exn_str ex1]
  /\ w_log (snd (add_course req2 w2))
     = w_log w2 ++ [lit "Unexpected error occurred: " ++ exn_str ex2].
Proof.
  intros Hp1 Hp2 Hf1 Hf2 Hs1 Hs2 generic.
  apply pystr_eqb_eq in Hp1, Hp2.
  assert (Hm1 : missing_fields_of (parse_form (form req1)) = []).
  { apply no_missing_fields. intros field Hf Hb.
    apply (Hf1 field Hf). now apply strip_nil_iff. }
  assert (Hm2 : missing_fields_of (parse_form (form req2)) = []).
  { apply no_missing_fields. intros field Hf Hb.
    apply (Hf2 field Hf). now apply strip_nil_iff. }
  rewrite (add_course_failed req1 w1 e1 ex1 Hp1 Hm1 Hs1).
  rewrite (add_course_failed req2 w2 e2 ex2 Hp2 Hm2 Hs2).
  cbn [fst snd w_flashes w_log].
  repeat match goal with |- _ /\ _ => split end; reflexivity.
Qed.

Lemma C8_failure_response_independent_of_exception_witness :
  fst (add_course (post_request cs101_form) (fresh_world env_unreadable))
  = fst (add_course (post_request cs101_form) (fresh_world (env_with (PDict []))))
  /\ w_flashes (snd (add_course (post_request cs101_form)
                       (fresh_world env_unreadable)))
     = [(lit "error", lit "An unexpected error occurred. Please try again later.")]
  /\ w_log (snd (add_course (post_request cs101_form)
                   (fresh_world env_unreadable)))
     = [lit "Unexpected error occurred: [Errno 13] Permission denied: 'course_catalog.json'"].
Proof.
  destruct (C8_failure_response_independent_of_exception
              (post_request cs101_form) (post_request cs101_form)
              (fresh_world (env_with (PDict []))) (fresh_world env_unreadable)
              (AttributeError (lit "'dict' object has no attribute 'append'"))
              (OSError (lit "[Errno 13] Permission denied: 'course_catalog.json'"))
              (env_with (PDict [])) env_unreadable)
    as (_ & Hsame & _ & Hfl & _ & Hlog).
  - reflexivity.
  - reflexivity.
  - intros field Hf.
    repeat (destruct Hf as [<-|Hf]; [vm_compute; discriminate|]).
    elim Hf.
  - intros field Hf.
    repeat (destruct Hf as [<-|Hf]; [vm_compute; discriminate|]).
    elim Hf.
  - reflexivity.
  - reflexivity.
  - split; [exact Hsame|]. split; [exact Hfl | exact Hlog].
Defined.

(** C6, as stated, fails on the scenario: after the record CS101 is
    submitted with no storage file, the catalog holds exactly that record,
    but the span "Add Course Operation" carries no "Course saved
    successfully" event. *)
Lemma C6_saved_event_not_on_root_span :
  ~ (catalog (w_env (snd (add_course (post_request cs101_form)
                            (fresh_world env_absent))))
     = Some [cs101_record]
     /\ exists root,
          In root (w_spans (snd (add_course (post_request cs101_form)
                                   (fresh_world env_absent))))
          /\ sp_name root = lit "Add Course Operation"
          /\ carries_event root (lit "Course saved successfully")
               [(lit "course_code", AStr (lit "CS101"))]).
Proof.
  rewrite (add_course_saved (post_request cs101_form)
             (fresh_world env_absent)
             (mk_env (Some (Parsed (PList [cs101_record]))) None None
                [lit "file not found"]) eq_refl eq_refl eq_refl).
  cbn [snd w_spans w_env fresh_world app].
  intros (_ & root & Hin & Hname & ev & Hev & _).
  destruct Hin as [<-|[<-|[<-|[<-|[]]]]];
    solve [ elim Hev | vm_compute in Hname; discriminate ].
Qed.

(** C6, amended. When the storage file is absent (and can be written) and
    the record CS101 of the scenario is submitted, the catalog afterwards
    holds exactly one record, equal to the input, and the "Course saved
    successfully" event with [course_code] "CS101" is on the "Save Course
    Data" span, a child of the root span; the root span has no event. *)
Theorem C6_scenario_saved_event_on_save_span (req : request) (w : world) :
  method req = lit "POST" ->
  form req = cs101_form ->
  file (w_env w) = None ->
  write_err (w_env w) = None ->
  exists (w' : world) (root form_span validation_span save_span : span),
    add_course req w = (Ok (Redirect (lit "course_catalog")), w')
    /\ catalog (w_env w') = Some [cs101_record]
    /\ w_spans w' = w_spans w ++ [root; form_span; validation_span; save_span]
    /\ sp_name root = lit "Add Course Operation"
    /\ sp_events root = []
    /\ sp_name save_span = lit "Save Course Data"
    /\ sp_parent save_span = Some (length (w_spans w))
    /\ carries_event save_span (lit "Course saved successfully")
         [(lit "course_code", AStr (lit "CS101"))].
Proof.
  intros Hpost Hform Hfile Hwrite. apply pystr_eqb_eq in Hpost.
  assert (Hm : missing_fields_of (parse_form (form req)) = [])
    by (rewrite Hform; reflexivity).
  assert (Hsave : save_courses (py_of_course (parse_form (form req))) (w_env w)
                  = (Ok tt,
                     mk_env (Some (Parsed (PList [cs101_record])))
                       (read_err (w_env w)) None
                       (stdout (w_env w) ++ [lit "file not found"]))).
  { rewrite Hform. destruct (w_env w) as [f r wr out].
    simpl in Hfile, Hwrite. subst f wr. reflexivity. }
  pose proof (add_course_saved req w _ Hpost Hm Hsave) as Hrun.
  cbv zeta in Hrun. do 5 eexists.
  split; [exact Hrun|].
  cbn [w_env w_spans sp_name sp_parent sp_events].
  repeat match goal with |- _ /\ _ => split end; try reflexivity.
  eexists. split; [left; reflexivity|].
  split; [reflexivity|]. cbn [ev_attrs]. unfold submitted.
  rewrite Hform. reflexivity.
Qed.

Lemma C6_scenario_saved_event_on_save_span_witness :
  exists (w' : world) (save_span : span),
    add_course (post_request cs101_form) (fresh_world env_absent)
    = (Ok (Redirect (lit "course_catalog")), w')
    /\ catalog (w_env w') = Some [cs101_record]
    /\ nth_error (w_spans w') 3 = Some save_span
    /\ sp_name save_span = lit "Save Course Data"
    /\ sp_parent save_span = Some 0
    /\ carries_event save_span (lit "Course saved successfully")
         [(lit "course_code", AStr (lit "CS101"))].
Proof.
  destruct (C6_scenario_saved_event_on_save_span (post_request cs101_form)
              (fresh_world env_absent))
    as (w' & root & fs & vs & ss & Hrun & Hcat & Hsp & _ & _ & Hn & Hp & Hev);
    try reflexivity.
  exists w', ss. rewrite Hsp.
  repeat match goal with |- _ /\ _ => split end;
    try reflexivity; assumption.
Defined.

(** C10. When a required key is absent from the form of a POST, the
    handler reads the empty string for it and raises nothing: the field is
    among the missing fields, the request is answered with the validation
    failure, and the answer and the world afterwards are those of the same
    request with a blank value submitted under that key. *)
Theorem C10_absent_field_read_as_blank (req : request) (w : world) (field : pystr) :
  method req = lit "POST" ->
  In field FIELDS ->
  absent field (form req) ->
  submitted req field = lit ""
  /\ alist_get (parse_form (form req)) field = Some (lit "")
  /\ In field (missing_fields_of (parse_form (form req)))
  /\ (exists w',
        add_course req w = (Ok (Render (lit "add_course.html") []), w')
        /\ w_flashes w'
           = w_flashes w ++
             [(lit "error",
               lit "Missing fields: "
               ++ join (lit ", ") (missing_fields_of (parse_form (form req))))])
  /\ (forall b, blank b ->
        add_course
          (mk_request (method req) (remote_addr req) (url req)
             ((field, b) :: form req)) w
        = add_course req w).
Proof.
  intros Hpost Hfield Habs.
  assert (Hsub : submitted req field = lit "")
    by (apply form_get_absent; exact Habs).
  assert (Hin : In field (missing_fields_of (parse_form (form req)))).
  { apply in_missing_fields. split; [exact Hfield|].
    fold (submitted req field). now rewrite Hsub. }
  split; [exact Hsub|].
  split.
  { rewrite (parse_form_get _ _ Hfield). fold (submitted req field).
    now rewrite Hsub. }
  split; [exact Hin|].
  split.
  - destruct (missing_fields_of (parse_form (form req))) as [|m ms] eqn:Hm;
      [elim Hin|].
    apply pystr_eqb_eq in Hpost.
    pose proof (add_course_missing req w m ms Hpost Hm) as Hrun.
    cbv zeta in Hrun. eexists. split; [exact Hrun | reflexivity].
  - intros b Hb. apply add_course_form_only; [reflexivity|].
    cbn [form]. now apply parse_form_blank_field.
Qed.

Lemma C10_absent_field_read_as_blank_witness :
  submitted (post_request nameless_form) (lit "name") = lit ""
  /\ In (lit "name") (missing_fields_of (parse_form nameless_form))
  /\ add_course (post_request ((lit "name", lit "  ") :: nameless_form))
       (fresh_world env_absent)
     = add_course (post_request nameless_form) (fresh_world env_absent).
Proof.
  destruct (C10_absent_field_read_as_blank (post_request nameless_form)
              (fresh_world env_absent) (lit "name"))
    as (Hsub & _ & Hin & _ & Hsame).
  - reflexivity.
  - vm_compute. tauto.
  - intros v Hv. vm_compute in Hv.
    repeat (destruct Hv as [Hv|Hv]; [discriminate|]). elim Hv.
  - split; [exact Hsub|]. split; [exact Hin|].
    apply (Hsame (lit "  ")). reflexivity.
Defined.

(** ** Loading and looking up *)

(** C5. When the backing file does not exist, [load_courses] returns the
    empty list and raises nothing, whatever the operating system would
    answer to a read; the file is still absent afterwards. *)
Theorem C5_load_without_file (e : env) :
  file e = None ->
  load_courses e
  = (Ok (PList []),
     mk_env None (read_err e) (write_err e) (stdout e ++ [lit "file not found"])).
Proof. exact (load_courses_absent e). Qed.

Lemma C5_load_without_file_witness :
  load_courses (mk_env None (Some (lit "[Errno 5] Input/output error")) None [])
  = (Ok (PList []),
     mk_env None (Some (lit "[Errno 5] Input/output error")) None
       [lit "file not found"]).
Proof.
  apply (C5_load_without_file
           (mk_env None (Some (lit "[Errno 5] Input/output error")) None [])).
  reflexivity.
Defined.

(** *** [course_details], path by path *)

Lemma course_details_found (code : pystr) (req : request) (w : world)
    (v c : pyval) (e' : env) :
  load_courses (w_env w) = (Ok v, e') ->
  find_course v code = Ok (Some c) ->
  py_truthy c = true ->
  let t := w_ticks w in
  course_details code req w
  = (Ok (Render (lit "course_details.html") [(lit "course", c)]),
     mk_world e' (w_clock w) (2 + t)
       (w_spans w ++
        [mk_span (lit "Course Code: " ++ code) INTERNAL (hd_error (w_stack w))
           (w_clock w t) (Some (w_clock w (1 + t)))
           (request_attrs req) [] StatusUnset])
       (w_stack w) (w_flashes w) (w_log w)).
Proof.
  intros Hl Hf Ht. destruct w as [e c0 t S K F L]. cbn [w_env] in Hl.
  unfold course_details, request_attrs.
  destruct (remote_addr req); run; rewrite Hl; run; rewrite Hf; run;
    rewrite Ht; run; norm; reflexivity.
Qed.

Lemma course_details_not_found (code : pystr) (req : request) (w : world)
    (v : pyval) (e' : env) :
  load_courses (w_env w) = (Ok v, e') ->
  find_course v code = Ok None ->
  let t := w_ticks w in
  course_details code req w
  = (Ok (Redirect (lit "course_catalog")),
     mk_world e' (w_clock w) (2 + t)
       (w_spans w ++
        [mk_span (lit "Course Code: " ++ code) INTERNAL (hd_error (w_stack w))
           (w_clock w t) (Some (w_clock w (1 + t)))
           (request_attrs req) [] StatusUnset])
       (w_stack w)
       (w_flashes w ++
        [(lit "error", lit "No course found with code '" ++ code ++ lit "'.")])
       (w_log w)).
Proof.
  intros Hl Hf. destruct w as [e c0 t S K F L]. cbn [w_env] in Hl.
  unfold course_details, request_attrs.
  destruct (remote_addr req); run; rewrite Hl; run; rewrite Hf; run;
    norm; reflexivity.
Qed.

(** C3. When the loaded sequence holds a record [c] whose code is the key,
    after records whose codes all differ from it, the scan of
    [course_details] returns [c] and the handler renders it, whatever
    follows [c] in the sequence, records with the same code included. *)
Theorem C3_lookup_returns_first_match (code : pystr) (req : request) (w : world)
    (before after : list pyval) (c : pyval) (e' : env) :
  load_courses (w_env w) = (Ok (PList (before ++ c :: after)), e') ->
  Forall (other_code code) before ->
  py_getitem c (lit "code") = Ok (PStr code) ->
  find_course (PList (before ++ c :: after)) code = Ok (Some c)
  /\ fst (course_details code req w)
     = Ok (Render (lit "course_details.html") [(lit "course", c)]).
Proof.
  intros Hl Hbefore Hc.
  assert (Hf : find_course (PList (before ++ c :: after)) code = Ok (Some c))
    by (apply first_with_code_first; assumption).
  split; [exact Hf|].
  rewrite (course_details_found code req w _ c e' Hl Hf
             (py_getitem_truthy c _ _ Hc)).
  reflexivity.
Qed.

Lemma C3_lookup_returns_first_match_witness :
  fst (course_details (lit "CS101") get_request
         (fresh_world (env_with (PList [ma201_record; cs101_record; cs101_again]))))
  = Ok (Render (lit "course_details.html") [(lit "course", cs101_record)]).
Proof.
  apply (C3_lookup_returns_first_match (lit "CS101") get_request
           (fresh_world (env_with (PList [ma201_record; cs101_record; cs101_again])))
           [ma201_record] [cs101_again] cs101_record
           (env_with (PList [ma201_record; cs101_record; cs101_again]))).
  - reflexivity.
  - constructor; [|constructor].
    exists (PStr (lit "MA201")). split; reflexivity.
  - reflexivity.
Defined.

(** C7. When the load succeeds with a sequence of records none of whose
    codes is the key, [course_details] returns normally: it flashes the
    not-found message and redirects to the catalog listing. *)
Theorem C7_lookup_not_found (code : pystr) (req : request) (w : world)
    (l : list pyval) (e' : env) :
  load_courses (w_env w) = (Ok (PList l), e') ->
  Forall (other_code code) l ->
  exists w',
    course_details code req w = (Ok (Redirect (lit "course_catalog")), w')
    /\ w_flashes w'
       = w_flashes w ++
         [(lit "error", lit "No course found with code '" ++ code ++ lit "'.")].
Proof.
  intros Hl Hall.
  assert (Hf : find_course (PList l) code = Ok None)
    by (apply first_with_code_none; exact Hall).
  pose proof (course_details_not_found code req w _ e' Hl Hf) as Hrun.
  cbv zeta in Hrun. eexists. split; [exact Hrun | reflexivity].
Qed.

Lemma C7_lookup_not_found_witness :
  exists w',
    course_details (lit "CS999") get_request
      (fresh_world (env_with (PList [ma201_record; cs101_record])))
    = (Ok (Redirect (lit "course_catalog")), w')
    /\ w_flashes w' = [(lit "error", lit "No course found with code 'CS999'.")].
Proof.
  destruct (C7_lookup_not_found (lit "CS999") get_request
              (fresh_world (env_with (PList [ma201_record; cs101_record])))
              [ma201_record; cs101_record]
              (env_with (PList [ma201_record; cs101_record])))
    as (w' & Hrun & Hfl).
  - reflexivity.
  - constructor; [|constructor; [|constructor]].
    + exists (PStr (lit "MA201")). split; reflexivity.
    + exists (PStr (lit "CS101")). split; reflexivity.
  - exists w'. split; [exact Hrun|]. rewrite Hfl. reflexivity.
Defined.

(** ** The span tree of an operation *)

(** Close a [span_tree] goal on an explicit list of spans, all children
    of the first one. *)
Ltac tree Hmono :=
  let i := fresh "i" in
  let s := fresh "s" in
  let Hi := fresh "Hi" in
  intros i s Hi;
  repeat
    (destruct i as [|i];
     [ injection Hi as <-;
       cbn [sp_end sp_start sp_parent];
       eexists; split; [reflexivity|];
       split; [apply Hmono; lia|];
       first
         [ reflexivity
         | exists 0; do 2 eexists;
           split; [lia|];
           split; [now rewrite Nat.add_0_r|];
           split; [reflexivity|];
           split; [reflexivity|];
           split; apply Hmono; lia ]
     | cbn [nth_error] in Hi ]);
  destruct i; discriminate.

Ltac tree_of Hmono :=
  cbn [snd w_spans w_stack];
  eexists; split; [reflexivity|];
  split; [reflexivity|];
  split; [tree Hmono | discriminate].

Lemma add_course_span_tree (req : request) (w : world) :
  monotone (w_clock w) ->
  exists new,
    w_spans (snd (add_course req w)) = w_spans w ++ new
    /\ w_stack (snd (add_course req w)) = w_stack w
    /\ span_tree (length (w_spans w)) (hd_error (w_stack w)) new
    /\ new <> [].
Proof.
  intros Hmono.
  destruct (pystr_eqb (method req) (lit "POST")) eqn:Hpost.
  - destruct (missing_fields_of (parse_form (form req))) as [|m ms] eqn:Hm.
    + destruct (save_courses (py_of_course (parse_form (form req))) (w_env w))
        as [[[]|ex] e'] eqn:Hsave.
      * rewrite (add_course_saved req w e' Hpost Hm Hsave). tree_of Hmono.
      * rewrite (add_course_failed req w e' ex Hpost Hm Hsave). tree_of Hmono.
    + rewrite (add_course_missing req w m ms Hpost Hm). tree_of Hmono.
  - rewrite (add_course_get req w Hpost). tree_of Hmono.
Qed.

Lemma course_catalog_span_tree (req : request) (w : world) :
  monotone (w_clock w) ->
  exists new,
    w_spans (snd (course_catalog req w)) = w_spans w ++ new
    /\ w_stack (snd (course_catalog req w)) = w_stack w
    /\ span_tree (length (w_spans w)) (hd_error (w_stack w)) new
    /\ new <> [].
Proof.
  intros Hmono. destruct w as [e c t S K F L]. cbn [w_clock] in Hmono.
  unfold course_catalog.
  destruct (remote_addr req); run;
    (destruct (load_courses e) as [[v|ex] e']; run;
     [ destruct (py_len v) as [n|ex]; run | ]);
    norm; tree_of Hmono.
Qed.

Lemma course_details_span_tree (code : pystr) (req : request) (w : world) :
  monotone (w_clock w) ->
  exists new,
    w_spans (snd (course_details code req w)) = w_spans w ++ new
    /\ w_stack (snd (course_details code req w)) = w_stack w
    /\ span_tree (length (w_spans w)) (hd_error (w_stack w)) new
    /\ new <> [].
Proof.
  intros Hmono. destruct w as [e c t S K F L]. cbn [w_clock] in Hmono.
  unfold course_details.
  destruct (remote_addr req); run;
    (destruct (load_courses e) as [[v|ex] e']; run;
     [ destruct (find_course v code) as [[found|]|ex]; run;
       [ destruct (py_truthy found); run | | ] | ]);
    norm; tree_of Hmono.
Qed.

Lemma manual_trace_span_tree (req : request) (w : world) :
  monotone (w_clock w) ->
  exists new,
    w_spans (snd (manual_trace req w)) = w_spans w ++ new
    /\ w_stack (snd (manual_trace req w)) = w_stack w
    /\ span_tree (length (w_spans w)) (hd_error (w_stack w)) new
    /\ new <> [].
Proof.
  intros Hmono. destruct w as [e c t S K F L]. cbn [w_clock] in Hmono.
  unfold manual_trace. run. norm. tree_of Hmono.
Qed.

(** C9. Under a clock whose readings never decrease, every operation, on
    each of its exits (a response or an exception), leaves the spans it
    opened ended, each no earlier than it started, forming one tree: the
    first span is the root, every other span has its parent among them and
    its interval inside the parent's; the stack of current spans is as it
    was before the operation.  The two routes without a span of their own
    add nothing. *)
Theorem C9_spans_end_and_nest (op : operation) (req : request) (w : world) :
  monotone (w_clock w) ->
  exists new,
    w_spans (snd (handle op req w)) = w_spans w ++ new
    /\ w_stack (snd (handle op req w)) = w_stack w
    /\ span_tree (length (w_spans w)) (hd_error (w_stack w)) new
    /\ match op with
       | OpIndex | OpAutoInstrumented => new = []
       | _ => new <> []
       end.
Proof.
  intros Hmono. destruct op as [| | | code | |]; cbn [handle].
  - exists []. cbn. rewrite app_nil_r.
    repeat split. intros [|i] s Hi; discriminate.
  - now apply course_catalog_span_tree.
  - now apply add_course_span_tree.
  - now apply course_details_span_tree.
  - now apply manual_trace_span_tree.
  - exists []. cbn. rewrite app_nil_r.
    repeat split. intros [|i] s Hi; discriminate.
Qed.

Lemma C9_spans_end_and_nest_witness :
  exists new,
    w_spans (snd (handle OpAddCourse (post_request cs101_form)
                    (fresh_world (env_with (PDict [])))))
    = new
    /\ span_tree 0 None new
    /\ new <> [].
Proof.
  destruct (C9_spans_end_and_nest OpAddCourse (post_request cs101_form)
              (fresh_world (env_with (PDict []))))
    as (new & Hsp & _ & Htree & Hne).
  - intros n m Hnm. cbn [w_clock fresh_world]. lia.
  - exists new. split; [exact Hsp|]. split; [exact Htree | exact Hne].
Defined.

(** * Further properties of the store and the handlers *)

(** ** The store *)

(** [load_courses] changes nothing but standard output. *)
Lemma load_courses_frame (e : env) :
  file (snd (load_courses e)) = file e
  /\ read_err (snd (load_courses e)) = read_err e
  /\ write_err (snd (load_courses e)) = write_err e.
Proof.
  destruct e as [[[msg|v]|] [r|] wr out]; repeat split.
Qed.

(** What a successful [save_courses] tells about the state before it and
    leaves behind. *)
Lemma save_courses_ok_inv (data : pyval) (e e' : env) :
  save_courses data e = (Ok tt, e') ->
  exists l,
    catalog e = Some l
    /\ write_err e = None
    /\ (file e <> None -> read_err e = None)
    /\ file e' = Some (Parsed (PList (l ++ [data])))
    /\ read_err e' = read_err e
    /\ write_err e' = write_err e.
Proof.
  destruct e as [[[msg|v]|] [r|] [[wm|wm wp]|] out];
    try destruct v as [| b | n | s | l | d];
    cbv [save_courses load_courses bind path_exists print ret read_json
         write_json lift_result py_append negb file read_err write_err stdout
         set_file catalog];
    intros H; try discriminate; injection H as <-;
    eexists; (split; [reflexivity|]);
    repeat split; congruence.
Qed.

(** What a failed [save_courses] leaves behind when the write does not
    fail half-way. *)
Lemma save_courses_raise_file (data : pyval) (e e' : env) (ex : exn) :
  save_courses data e = (Raise ex, e') ->
  no_dump_fault e ->
  file e' = file e.
Proof.
  destruct e as [[[msg|v]|] [r|] [[wm|wm wp]|] out];
    try destruct v as [| b | n | s | l | d];
    cbv [save_courses load_courses bind path_exists print ret read_json
         write_json lift_result py_append negb file read_err write_err stdout
         set_file no_dump_fault];
    intros H Hd; try discriminate; try contradiction;
    injection H as _ <-; reflexivity.
Qed.

(** X1. [save_courses] succeeds only on a catalog: when it returns
    normally, the file stood for a sequence before the call (no file, or a
    file holding a list) and holds that sequence followed by the new record
    afterwards. *)
Theorem X1_save_success_only_on_catalog (data : pyval) (e e' : env) :
  save_courses data e = (Ok tt, e') ->
  exists prior,
    catalog e = Some prior /\ catalog e' = Some (prior ++ [data]).
Proof.
  intros H. destruct (save_courses_ok_inv data e e' H)
    as (l & Hc & _ & _ & Hf & _).
  exists l. split; [exact Hc|]. unfold catalog. now rewrite Hf.
Qed.

Lemma X1_save_success_only_on_catalog_witness :
  exists prior,
    catalog (env_with (PList [ma201_record])) = Some prior
    /\ catalog (env_with (PList [ma201_record; cs101_record]))
       = Some (prior ++ [cs101_record]).
Proof.
  apply (X1_save_success_only_on_catalog cs101_record
           (env_with (PList [ma201_record]))
           (env_with (PList [ma201_record; cs101_record]))).
  reflexivity.
Defined.

(** X2. A failed [save_courses] does not touch the file, unless the
    failure is a write breaking off half-way: an unreadable or malformed
    file, a file that holds no list and a file that cannot be opened for
    writing are all left as they were. *)
Theorem X2_failed_save_keeps_file (data : pyval) (e e' : env) (ex : exn) :
  save_courses data e = (Raise ex, e') ->
  no_dump_fault e ->
  file e' = file e.
Proof. exact (save_courses_raise_file data e e' ex). Qed.

Lemma X2_failed_save_keeps_file_witness :
  file (snd (save_courses cs101_record (env_readonly [ma201_record])))
  = Some (Parsed (PList [ma201_record])).
Proof.
  apply (X2_failed_save_keeps_file cs101_record (env_readonly [ma201_record])
           (snd (save_courses cs101_record (env_readonly [ma201_record])))
           (OSError (lit "[Errno 13] Permission denied: 'course_catalog.json'"))).
  - reflexivity.
  - exact I.
Defined.

(** X3. Saving then loading: after a successful [save_courses], with the
    file readable, [load_courses] returns a list whose last element is the
    saved record, after the records stored before. *)
Theorem X3_save_then_load (data : pyval) (e e' : env) :
  save_courses data e = (Ok tt, e') ->
  read_err e = None ->
  exists prior,
    catalog e = Some prior
    /\ load_courses e' = (Ok (PList (prior ++ [data])), e').
Proof.
  intros H Hr. destruct (save_courses_ok_inv data e e' H)
    as (l & Hc & _ & _ & Hf & Hr' & _).
  exists l. split; [exact Hc|].
  rewrite (load_courses_present e' _ Hf). unfold read_json.
  now rewrite Hr', Hr, Hf.
Qed.

Lemma X3_save_then_load_witness :
  exists prior,
    catalog env_absent = Some prior
    /\ load_courses (snd (save_courses cs101_record env_absent))
       = (Ok (PList (prior ++ [cs101_record])),
          snd (save_courses cs101_record env_absent)).
Proof.
  apply (X3_save_then_load cs101_record env_absent
           (snd (save_courses cs101_record env_absent)));
    reflexivity.
Defined.

(** X4. Saves accumulate and nothing is deduplicated: two successive
    saves on a catalog with working I/O leave the prior sequence followed
    by the two records in the order saved, also when the two are the same
    record. *)
Theorem X4_saves_accumulate (d1 d2 : pyval) (e : env) (prior : list pyval) :
  catalog e = Some prior ->
  io_ok e ->
  exists e1 e2,
    save_courses d1 e = (Ok tt, e1)
    /\ save_courses d2 e1 = (Ok tt, e2)
    /\ catalog e2 = Some (prior ++ [d1; d2]).
Proof.
  intros Hc Hio.
  destruct (save_courses_appends d1 e prior Hc Hio) as (e1 & Hs1 & Hf1).
  destruct (save_courses_ok_inv d1 e e1 Hs1) as (l & _ & _ & Hrd & _ & Hr1 & Hw1).
  assert (Hio1 : io_ok e1).
  { destruct Hio as [Hr Hw]. split; congruence. }
  assert (Hc1 : catalog e1 = Some (prior ++ [d1]))
    by (unfold catalog; now rewrite Hf1).
  destruct (save_courses_appends d2 e1 _ Hc1 Hio1) as (e2 & Hs2 & Hf2).
  exists e1, e2. split; [exact Hs1|]. split; [exact Hs2|].
  unfold catalog. rewrite Hf2, <- app_assoc. reflexivity.
Qed.

Lemma X4_saves_accumulate_witness :
  exists e1 e2,
    save_courses cs101_record env_absent = (Ok tt, e1)
    /\ save_courses cs101_record e1 = (Ok tt, e2)
    /\ catalog e2 = Some [cs101_record; cs101_record].
Proof.
  apply (X4_saves_accumulate cs101_record cs101_record env_absent []).
  - reflexivity.
  - split; reflexivity.
Defined.

(** ** The listing and the lookup, path by path *)

Lemma course_catalog_listed (req : request) (w : world) (v : pyval) (n : Z)
    (e' : env) :
  load_courses (w_env w) = (Ok v, e') ->
  py_len v = Ok n ->
  let t := w_ticks w in
  course_catalog req w
  = (Ok (Render (lit "course_catalog.html") [(lit "courses", v)]),
     mk_world e' (w_clock w) (2 + t)
       (w_spans w ++
        [mk_span (lit "Render course catalog") INTERNAL (hd_error (w_stack w))
           (w_clock w t) (Some (w_clock w (1 + t)))
           (request_attrs req ++ [(lit "courses.count", AInt n)])
           [] StatusUnset])
       (w_stack w) (w_flashes w) (w_log w)).
Proof.
  intros Hl Hn. destruct w as [e c0 t S K F L]. cbn [w_env] in Hl.
  unfold course_catalog, request_attrs.
  destruct (remote_addr req); run; rewrite Hl; run; rewrite Hn; run;
    norm; reflexivity.
Qed.




(** The store a read-only handler leaves is the one [load_courses] leaves. *)
Lemma course_catalog_env (req : request) (w : world) :
  w_env (snd (course_catalog req w)) = snd (load_courses (w_env w)).
Proof.
  destruct w as [e c t S K F L]. unfold course_catalog.
  destruct (remote_addr req); run;
    (destruct (load_courses e) as [[v|ex] e']; run;
     [ destruct (py_len v) as [n|ex]; run | ]);
    reflexivity.
Qed.

Lemma course_details_env (code : pystr) (req : request) (w : world) :
  w_env (snd (course_details code req w)) = snd (load_courses (w_env w)).
Proof.
  destruct w as [e c t S K F L]. unfold course_details.
  destruct (remote_addr req); run;
    (destruct (load_courses e) as [[v|ex] e']; run;
     [ destruct (find_course v code) as [[found|]|ex]; run;
       [ destruct (py_truthy found); run | | ] | ]);
    reflexivity.
Qed.

Lemma manual_trace_env (req : request) (w : world) :
  w_env (snd (manual_trace req w)) = w_env w.
Proof. destruct w as [e c t S K F L]. reflexivity. Qed.

(** The scan, read backwards: what a result tells about the sequence. *)
Lemma first_with_code_inv (l : list pyval) (code : pystr) (r : option pyval) :
  first_with_code l code = Ok r ->
  match r with
  | Some c =>
      exists before after,
        l = before ++ c :: after
        /\ Forall (other_code code) before
        /\ py_getitem c (lit "code") = Ok (PStr code)
  | None => Forall (other_code code) l
  end.
Proof.
  revert r. induction l as [|d l IH]; intros r; simpl.
  - intros H. injection H as <-. constructor.
  - destruct (py_getitem d (lit "code")) as [v|ex] eqn:Hv; [|discriminate].
    destruct (py_eq_str v code) eqn:Heq.
    + intros H. injection H as <-.
      exists [], l. split; [reflexivity|]. split; [constructor|].
      destruct v; try discriminate. simpl in Heq.
      apply pystr_eqb_eq in Heq. now subst.
    + intros H. specialize (IH r H).
      assert (Hd : other_code code d) by (exists v; now split).
      destruct r as [c|].
      * destruct IH as (before & after & -> & Hb & Hc).
        exists (d :: before), after. split; [reflexivity|].
        split; [now constructor | exact Hc].
      * now constructor.
Qed.


Lemma missing_none_nonblank (f : list (pystr * pystr)) :
  missing_fields_of (parse_form f) = [] ->
  forall field, In field FIELDS -> strip (form_get f field (lit "")) <> [].
Proof.
  intros Hm field Hf Hs.
  assert (Hin : In field (missing_fields_of (parse_form f))).
  { apply in_missing_fields. split; [exact Hf | now apply strip_nil_iff]. }
  rewrite Hm in Hin. exact Hin.
Qed.

(** ** The lookup *)

(** X5. What the scan of [course_details] returns is sound: a record it
    returns is in the loaded sequence, has the key as its code, and every
    record before it has another code; when it returns none, every record
    of the sequence has another code. *)
Theorem X5_scan_result_sound (l : list pyval) (code : pystr) (r : option pyval) :
  find_course (PList l) code = Ok r ->
  match r with
  | Some c =>
      exists before after,
        l = before ++ c :: after
        /\ Forall (other_code code) before
        /\ py_getitem c (lit "code") = Ok (PStr code)
  | None => Forall (other_code code) l
  end.
Proof. exact (first_with_code_inv l code r). Qed.

Lemma X5_scan_result_sound_witness :
  exists before after,
    [ma201_record; cs101_record; cs101_again] = before ++ cs101_record :: after
    /\ Forall (other_code (lit "CS101")) before
    /\ py_getitem cs101_record (lit "code") = Ok (PStr (lit "CS101")).
Proof.
  apply (X5_scan_result_sound [ma201_record; cs101_record; cs101_again]
           (lit "CS101") (Some cs101_record)).
  reflexivity.
Defined.

(** X6. A record found is a record shown: whenever the scan finds a
    record, the truth test of [course_details] on it passes and the handler
    renders it; the not-found answer is given only when the scan found
    none. *)
Theorem X6_found_record_is_rendered (code : pystr) (req : request) (w : world)
    (v c : pyval) (e' : env) :
  load_courses (w_env w) = (Ok v, e') ->
  find_course v code = Ok (Some c) ->
  fst (course_details code req w)
  = Ok (Render (lit "course_details.html") [(lit "course", c)])
  /\ w_flashes (snd (course_details code req w)) = w_flashes w.
Proof.
  intros Hl Hf.
  assert (Ht : py_truthy c = true).
  { unfold find_course in Hf. destruct (py_iter v) as [l|ex]; [|discriminate].
    apply first_with_code_inv in Hf as (before & after & _ & _ & Hc).
    exact (py_getitem_truthy c _ _ Hc). }
  rewrite (course_details_found code req w v c e' Hl Hf Ht).
  split; reflexivity.
Qed.

Lemma X6_found_record_is_rendered_witness :
  fst (course_details (lit "MA201") get_request
         (fresh_world (env_with (PList [ma201_record; cs101_record]))))
  = Ok (Render (lit "course_details.html") [(lit "course", ma201_record)])
  /\ w_flashes (snd (course_details (lit "MA201") get_request
                       (fresh_world (env_with (PList [ma201_record; cs101_record])))))
     = [].
Proof.
  apply (X6_found_record_is_rendered (lit "MA201") get_request
           (fresh_world (env_with (PList [ma201_record; cs101_record])))
           (PList [ma201_record; cs101_record]) ma201_record
           (env_with (PList [ma201_record; cs101_record])));
    reflexivity.
Defined.





(** ** The listing *)

(** X9. The listing shows the loaded sequence as it is, in the order
    stored, and puts its length on the span as [courses.count]; with no
    file it shows the empty list with count 0. *)
Theorem X9_listing_shows_catalog (req : request) (w : world) (l : list pyval) :
  catalog (w_env w) = Some l ->
  read_err (w_env w) = None ->
  exists w' s,
    course_catalog req w
    = (Ok (Render (lit "course_catalog.html") [(lit "courses", PList l)]), w')
    /\ w_spans w' = w_spans w ++ [s]
    /\ sp_name s = lit "Render course catalog"
    /\ has_attr s (lit "courses.count") (AInt (Z.of_nat (length l)))
    /\ file (w_env w') = file (w_env w)
    /\ w_flashes w' = w_flashes w.
Proof.
  intros Hc Hr.
  destruct (load_courses_catalog (w_env w) l Hc Hr) as (e' & Hl & Hf & _).
  pose proof (course_catalog_listed req w (PList l) _ e' Hl eq_refl) as Hrun.
  cbv zeta in Hrun. do 2 eexists. split; [exact Hrun|].
  cbn [w_spans w_env w_flashes sp_name].
  repeat match goal with |- _ /\ _ => split end; try reflexivity;
    try assumption.
  unfold has_attr, request_attrs. cbn [sp_attrs].
  destruct (remote_addr req); reflexivity.
Qed.

Lemma X9_listing_shows_catalog_witness :
  exists w' s,
    course_catalog get_request (fresh_world env_absent)
    = (Ok (Render (lit "course_catalog.html") [(lit "courses", PList [])]), w')
    /\ w_spans w' = [s]
    /\ has_attr s (lit "courses.count") (AInt 0).
Proof.
  destruct (X9_listing_shows_catalog get_request (fresh_world env_absent) [])
    as (w' & s & Hrun & Hsp & _ & Hattr & _); try reflexivity.
  exists w', s. split; [exact Hrun|]. split; [exact Hsp | exact Hattr].
Defined.



(** ** Trimming *)








(** ** Submitting, as a whole *)

Lemma load_courses_parsed (e : env) (v : pyval) :
  file e = Some (Parsed v) -> read_err e = None ->
  load_courses e = (Ok v, e).
Proof.
  destruct e as [f r wr out]. simpl. intros -> ->. reflexivity.
Qed.

Lemma record_of_parse (req : request) :
  py_of_course (parse_form (form req)) = record_of req.
Proof. reflexivity. Qed.

Lemma record_of_code (req : request) :
  py_getitem (record_of req) (lit "code")
  = Ok (PStr (strip (submitted req (lit "code")))).
Proof. reflexivity. Qed.

(** A valid POST on a catalog with working I/O, and the load after it. *)
Lemma submit_then_load (req : request) (w : world) (prior : list pyval) :
  method req = lit "POST" ->
  (forall field, In field FIELDS -> strip (submitted req field) <> []) ->
  catalog (w_env w) = Some prior ->
  io_ok (w_env w) ->
  exists w1,
    add_course req w = (Ok (Redirect (lit "course_catalog")), w1)
    /\ catalog (w_env w1) = Some (prior ++ [record_of req])
    /\ load_courses (w_env w1)
       = (Ok (PList (prior ++ [record_of req])), w_env w1).
Proof.
  intros Hpost Hfields Hcat Hio. apply pystr_eqb_eq in Hpost.
  assert (Hm : missing_fields_of (parse_form (form req)) = []).
  { apply no_missing_fields. intros field Hf Hb.
    apply (Hfields field Hf). now apply strip_nil_iff. }
  destruct (save_courses_appends (py_of_course (parse_form (form req)))
              (w_env w) prior Hcat Hio) as (e' & Hsave & Hfile).
  destruct (save_courses_ok_inv _ _ _ Hsave) as (l & _ & _ & _ & _ & Hr & _).
  pose proof (add_course_saved req w e' Hpost Hm Hsave) as Hrun.
  cbv zeta in Hrun. eexists. split; [exact Hrun|].
  cbn [w_env]. rewrite record_of_parse in Hfile. split.
  - unfold catalog. now rewrite Hfile.
  - apply load_courses_parsed; [exact Hfile|].
    destruct Hio as [Hr0 _]. congruence.
Qed.

(** X12. [add_course] never raises.  Whatever the request and the state
    of the store, it returns a response, which is the form again or the
    redirect to the listing, in one of four ways: the form for a method
    other than POST, with nothing flashed, logged or stored; the form with
    the flashed list of missing fields, nothing logged or stored; the
    redirect with the success message flashed, nothing logged; the form
    with the fixed failure message flashed and one line logged. *)
Theorem X12_add_course_outcomes (req : request) (w : world) :
  exists (r : response) (w' : world),
    add_course req w = (Ok r, w')
    /\ ((method req <> lit "POST"
         /\ r = Render (lit "add_course.html") []
         /\ w_flashes w' = w_flashes w /\ w_log w' = w_log w
         /\ w_env w' = w_env w)
        \/ (method req = lit "POST"
            /\ missing_fields_of (parse_form (form req)) <> []
            /\ r = Render (lit "add_course.html") []
            /\ w_flashes w'
               = w_flashes w ++
                 [(lit "error",
                   lit "Missing fields: "
                   ++ join (lit ", ") (missing_fields_of (parse_form (form req))))]
            /\ w_log w' = w_log w
            /\ w_env w' = w_env w)
        \/ (method req = lit "POST"
            /\ r = Redirect (lit "course_catalog")
            /\ w_flashes w'
               = w_flashes w ++
                 [(lit "success",
                   lit "Course '" ++ strip (submitted req (lit "name"))
                   ++ lit "' added successfully!")]
            /\ w_log w' = w_log w)
        \/ (method req = lit "POST"
            /\ r = Render (lit "add_course.html") []
            /\ exists ex,
                 w_flashes w'
                 = w_flashes w ++
                   [(lit "error",
                     lit "An unexpected error occurred. Please try again later.")]
                 /\ w_log w'
                    = w_log w ++ [lit "Unexpected error occurred: " ++ exn_str ex])).
Proof.
  destruct (pystr_eqb (method req) (lit "POST")) eqn:Hpost.
  - assert (Hp : method req = lit "POST") by now apply pystr_eqb_eq.
    destruct (missing_fields_of (parse_form (form req))) as [|m ms] eqn:Hm.
    + destruct (save_courses (py_of_course (parse_form (form req))) (w_env w))
        as [[[]|ex] e'] eqn:Hsave.
      * do 2 eexists.
        split; [exact (add_course_saved req w e' Hpost Hm Hsave)|].
        right. right. left. repeat split; [exact Hp].
      * do 2 eexists.
        split; [exact (add_course_failed req w e' ex Hpost Hm Hsave)|].
        right. right. right.
        split; [exact Hp|]. split; [reflexivity|].
        exists ex. split; reflexivity.
    + do 2 eexists.
      split; [exact (add_course_missing req w m ms Hpost Hm)|].
      right. left.
      split; [exact Hp|]. split; [discriminate|]. repeat split.
  - do 2 eexists. split; [exact (add_course_get req w Hpost)|].
    left. split; [now apply pystr_eqb_neq|]. repeat split.
Qed.

(** X13. The redirect is given only for a stored record: when
    [add_course] answers with a redirect, the request was a POST with all
    nine fields non-empty after trimming, the file stood for a sequence
    before, and it holds that sequence followed by the record of the
    request afterwards. *)
Theorem X13_redirect_means_stored (req : request) (w w' : world) (endpoint : pystr) :
  add_course req w = (Ok (Redirect endpoint), w') ->
  method req = lit "POST"
  /\ (forall field, In field FIELDS -> strip (submitted req field) <> [])
  /\ exists prior,
       catalog (w_env w) = Some prior
       /\ catalog (w_env w') = Some (prior ++ [record_of req]).
Proof.
  intros H.
  destruct (pystr_eqb (method req) (lit "POST")) eqn:Hpost.
  - destruct (missing_fields_of (parse_form (form req))) as [|m ms] eqn:Hm.
    + destruct (save_courses (py_of_course (parse_form (form req))) (w_env w))
        as [[[]|ex] e'] eqn:Hsave.
      * rewrite (add_course_saved req w e' Hpost Hm Hsave) in H.
        injection H as _ <-.
        split; [now apply pystr_eqb_eq|].
        split; [exact (missing_none_nonblank _ Hm)|].
        destruct (save_courses_ok_inv _ _ _ Hsave) as (l & Hc & _ & _ & Hf & _).
        exists l. split; [exact Hc|]. cbn [w_env]. unfold catalog.
        now rewrite Hf.
      * rewrite (add_course_failed req w e' ex Hpost Hm Hsave) in H.
        discriminate H.
    + rewrite (add_course_missing req w m ms Hpost Hm) in H. discriminate H.
  - rewrite (add_course_get req w Hpost) in H. discriminate H.
Qed.

Lemma X13_redirect_means_stored_witness :
  exists prior,
    catalog env_absent = Some prior
    /\ catalog (w_env (snd (add_course (post_request cs101_form)
                              (fresh_world env_absent))))
       = Some (prior ++ [record_of (post_request cs101_form)]).
Proof.
  destruct (X13_redirect_means_stored (post_request cs101_form)
              (fresh_world env_absent)
              (snd (add_course (post_request cs101_form) (fresh_world env_absent)))
              (lit "course_catalog"))
    as (_ & _ & Hprior).
  - rewrite (add_course_saved (post_request cs101_form)
               (fresh_world env_absent)
               (mk_env (Some (Parsed (PList [cs101_record]))) None None
                  [lit "file not found"]) eq_refl eq_refl eq_refl).
    reflexivity.
  - exact Hprior.
Defined.

(** X14. A submit that is not answered with the redirect leaves the file
    as it was, unless a write broke off half-way: a request with another
    method, a validation failure and a failed save do not change what is
    stored. *)
Theorem X14_no_redirect_no_change (req : request) (w : world) :
  no_dump_fault (w_env w) ->
  fst (add_course req w) <> Ok (Redirect (lit "course_catalog")) ->
  file (w_env (snd (add_course req w))) = file (w_env w).
Proof.
  intros Hd Hr.
  destruct (pystr_eqb (method req) (lit "POST")) eqn:Hpost.
  - destruct (missing_fields_of (parse_form (form req))) as [|m ms] eqn:Hm.
    + destruct (save_courses (py_of_course (parse_form (form req))) (w_env w))
        as [[[]|ex] e'] eqn:Hsave.
      * rewrite (add_course_saved req w e' Hpost Hm Hsave) in Hr.
        now elim Hr.
      * rewrite (add_course_failed req w e' ex Hpost Hm Hsave).
        cbn [snd w_env]. exact (save_courses_raise_file _ _ _ _ Hsave Hd).
    + rewrite (add_course_missing req w m ms Hpost Hm). reflexivity.
  - rewrite (add_course_get req w Hpost). reflexivity.
Qed.

Lemma X14_no_redirect_no_change_witness :
  file (w_env (snd (add_course (post_request cs101_form)
                      (fresh_world env_malformed))))
  = Some (Malformed (lit "Expecting value: line 1 column 1 (char 0)")).
Proof.
  apply (X14_no_redirect_no_change (post_request cs101_form)
           (fresh_world env_malformed)).
  - exact I.
  - rewrite (add_course_failed (post_request cs101_form)
               (fresh_world env_malformed) env_malformed
               (JSONDecodeError (lit "Expecting value: line 1 column 1 (char 0)"))
               eq_refl eq_refl eq_refl).
    discriminate.
Defined.

(** X15. Only a valid POST to [add_course] changes the file: when the
    file after an operation differs from the file before it, the operation
    is the submit, the method is POST and all nine fields are non-empty
    after trimming.  The listing, the lookup and the other routes never
    write. *)
Theorem X15_only_valid_submit_writes (op : operation) (req : request) (w : world) :
  file (w_env (snd (handle op req w))) <> file (w_env w) ->
  op = OpAddCourse
  /\ method req = lit "POST"
  /\ (forall field, In field FIELDS -> strip (submitted req field) <> []).
Proof.
  intros H. destruct op as [| | | code | |]; cbn [handle] in H.
  - now elim H.
  - rewrite course_catalog_env in H.
    elim H. apply load_courses_frame.
  - split; [reflexivity|].
    destruct (pystr_eqb (method req) (lit "POST")) eqn:Hpost.
    + split; [now apply pystr_eqb_eq|].
      destruct (missing_fields_of (parse_form (form req))) as [|m ms] eqn:Hm.
      * exact (missing_none_nonblank _ Hm).
      * rewrite (add_course_missing req w m ms Hpost Hm) in H. now elim H.
    + rewrite (add_course_get req w Hpost) in H. now elim H.
  - rewrite course_details_env in H.
    elim H. apply load_courses_frame.
  - rewrite manual_trace_env in H. now elim H.
  - now elim H.
Qed.

Lemma X15_only_valid_submit_writes_witness :
  OpAddCourse = OpAddCourse
  /\ method (post_request cs101_form) = lit "POST"
  /\ (forall field, In field FIELDS ->
        strip (submitted (post_request cs101_form) field) <> []).
Proof.
  apply (X15_only_valid_submit_writes OpAddCourse (post_request cs101_form)
           (fresh_world env_absent)).
  cbn [handle].
  rewrite (add_course_saved (post_request cs101_form)
             (fresh_world env_absent)
             (mk_env (Some (Parsed (PList [cs101_record]))) None None
                [lit "file not found"]) eq_refl eq_refl eq_refl).
  discriminate.
Defined.

(** ** Submitting, then reading *)

(** X16. Submit, then look up: after a valid POST on a catalog in which
    no record has the submitted (trimmed) code, with working I/O, the
    lookup of that code renders the record just stored. *)
Theorem X16_submit_then_lookup (req req' : request) (w : world) (prior : list pyval) :
  method req = lit "POST" ->
  (forall field, In field FIELDS -> strip (submitted req field) <> []) ->
  catalog (w_env w) = Some prior ->
  io_ok (w_env w) ->
  Forall (other_code (strip (submitted req (lit "code")))) prior ->
  exists w1,
    add_course req w = (Ok (Redirect (lit "course_catalog")), w1)
    /\ fst (course_details (strip (submitted req (lit "code"))) req' w1)
       = Ok (Render (lit "course_details.html") [(lit "course", record_of req)]).
Proof.
  intros Hpost Hfields Hcat Hio Hprior.
  destruct (submit_then_load req w prior Hpost Hfields Hcat Hio)
    as (w1 & Hrun & _ & Hload).
  exists w1. split; [exact Hrun|].
  assert (Hf : find_course (PList (prior ++ [record_of req]))
                 (strip (submitted req (lit "code")))
               = Ok (Some (record_of req))).
  { apply first_with_code_first; [exact Hprior | apply record_of_code]. }
  rewrite (course_details_found _ req' w1 _ _ _ Hload Hf
             (py_getitem_truthy _ _ _ (record_of_code req))).
  reflexivity.
Qed.

Lemma X16_submit_then_lookup_witness :
  exists w1,
    add_course (post_request cs101_form)
      (fresh_world (env_with (PList [ma201_record])))
    = (Ok (Redirect (lit "course_catalog")), w1)
    /\ fst (course_details (lit "CS101") get_request w1)
       = Ok (Render (lit "course_details.html") [(lit "course", cs101_record)]).
Proof.
  apply (X16_submit_then_lookup (post_request cs101_form) get_request
           (fresh_world (env_with (PList [ma201_record]))) [ma201_record]).
  - reflexivity.
  - intros field Hf.
    repeat (destruct Hf as [<-|Hf]; [vm_compute; discriminate|]).
    elim Hf.
  - reflexivity.
  - split; reflexivity.
  - constructor; [|constructor].
    exists (PStr (lit "MA201")). split; reflexivity.
Defined.

(** X17. A record submitted under a code already in the catalog is stored
    but not reachable by the lookup: after the submit, the lookup of that
    code still renders the first record stored under it. *)
Theorem X17_duplicate_code_is_shadowed (req req' : request) (w : world)
    (before after : list pyval) (c : pyval) :
  method req = lit "POST" ->
  (forall field, In field FIELDS -> strip (submitted req field) <> []) ->
  catalog (w_env w) = Some (before ++ c :: after) ->
  io_ok (w_env w) ->
  Forall (other_code (strip (submitted req (lit "code")))) before ->
  py_getitem c (lit "code") = Ok (PStr (strip (submitted req (lit "code")))) ->
  exists w1,
    add_course req w = (Ok (Redirect (lit "course_catalog")), w1)
    /\ catalog (w_env w1) = Some (before ++ c :: after ++ [record_of req])
    /\ fst (course_details (strip (submitted req (lit "code"))) req' w1)
       = Ok (Render (lit "course_details.html") [(lit "course", c)]).
Proof.
  intros Hpost Hfields Hcat Hio Hbefore Hc.
  destruct (submit_then_load req w _ Hpost Hfields Hcat Hio)
    as (w1 & Hrun & Hcat1 & Hload).
  rewrite <- app_assoc in Hload, Hcat1. cbn [app] in Hload, Hcat1.
  exists w1. split; [exact Hrun|]. split; [exact Hcat1|].
  assert (Hf : find_course (PList (before ++ c :: after ++ [record_of req]))
                 (strip (submitted req (lit "code")))
               = Ok (Some c)).
  { apply first_with_code_first; assumption. }
  rewrite (course_details_found _ req' w1 _ _ _ Hload Hf
             (py_getitem_truthy _ _ _ Hc)).
  reflexivity.
Qed.

Lemma X17_duplicate_code_is_shadowed_witness :
  exists w1,
    add_course (post_request cs101_form)
      (fresh_world (env_with (PList [ma201_record; cs101_again])))
    = (Ok (Redirect (lit "course_catalog")), w1)
    /\ catalog (w_env w1) = Some ([ma201_record] ++ cs101_again :: [] ++ [cs101_record])
    /\ fst (course_details (lit "CS101") get_request w1)
       = Ok (Render (lit "course_details.html") [(lit "course", cs101_again)]).
Proof.
  apply (X17_duplicate_code_is_shadowed (post_request cs101_form) get_request
           (fresh_world (env_with (PList [ma201_record; cs101_again])))
           [ma201_record] [] cs101_again).
  - reflexivity.
  - intros field Hf.
    repeat (destruct Hf as [<-|Hf]; [vm_compute; discriminate|]).
    elim Hf.
  - reflexivity.
  - split; reflexivity.
  - constructor; [|constructor].
    exists (PStr (lit "MA201")). split; reflexivity.
  - reflexivity.
Defined.

(** X18. Submit, then list: after a valid POST on a catalog with working
    I/O, the listing shows the prior records followed by the new one. *)
Theorem X18_submit_then_list (req req' : request) (w : world) (prior : list pyval) :
  method req = lit "POST" ->
  (forall field, In field FIELDS -> strip (submitted req field) <> []) ->
  catalog (w_env w) = Some prior ->
  io_ok (w_env w) ->
  exists w1,
    add_course req w = (Ok (Redirect (lit "course_catalog")), w1)
    /\ fst (course_catalog req' w1)
       = Ok (Render (lit "course_catalog.html")
               [(lit "courses", PList (prior ++ [record_of req]))]).
Proof.
  intros Hpost Hfields Hcat Hio.
  destruct (submit_then_load req w prior Hpost Hfields Hcat Hio)
    as (w1 & Hrun & _ & Hload).
  exists w1. split; [exact Hrun|].
  rewrite (course_catalog_listed req' w1 _ _ _ Hload eq_refl).
  reflexivity.
Qed.

Lemma X18_submit_then_list_witness :
  exists w1,
    add_course (post_request cs101_form) (fresh_world env_absent)
    = (Ok (Redirect (lit "course_catalog")), w1)
    /\ fst (course_catalog get_request w1)
       = Ok (Render (lit "course_catalog.html")
               [(lit "courses", PList [cs101_record])]).
Proof.
  apply (X18_submit_then_list (post_request cs101_form) get_request
           (fresh_world env_absent) []).
  - reflexivity.
  - intros field Hf.
    repeat (destruct Hf as [<-|Hf]; [vm_compute; discriminate|]).
    elim Hf.
  - reflexivity.
  - split; reflexivity.
Defined.

(** ** Span kinds *)

Ltac kinds_of :=
  cbn [snd w_spans];
  eexists; split; [reflexivity|];
  split; [repeat constructor | first [exact I | reflexivity]].

(** X19. Only the manual probe opens a server span: the spans an
    operation adds are all of the default (internal) kind, except for
    [manual_trace], which adds exactly one span, of kind SERVER. *)
Theorem X19_span_kinds (op : operation) (req : request) (w : world) :
  exists new,
    w_spans (snd (handle op req w)) = w_spans w ++ new
    /\ Forall (fun s => sp_kind s = match op with
                                    | OpManualTrace => SERVER
                                    | _ => INTERNAL
                                    end) new
    /\ match op with
       | OpManualTrace => length new = 1
       | _ => True
       end.
Proof.
  destruct op as [| | | code | |]; cbn [handle].
  - exists []. cbn. rewrite app_nil_r. repeat split. constructor.
  - destruct w as [e c t S K F L]. unfold course_catalog.
    destruct (remote_addr req); run;
      (destruct (load_courses e) as [[v|ex] e']; run;
       [ destruct (py_len v) as [n|ex]; run | ]);
      norm; kinds_of.
  - destruct (pystr_eqb (method req) (lit "POST")) eqn:Hpost.
    + destruct (missing_fields_of (parse_form (form req))) as [|m ms] eqn:Hm.
      * destruct (save_courses (py_of_course (parse_form (form req))) (w_env w))
          as [[[]|ex] e'] eqn:Hsave.
        -- rewrite (add_course_saved req w e' Hpost Hm Hsave). kinds_of.
        -- rewrite (add_course_failed req w e' ex Hpost Hm Hsave). kinds_of.
      * rewrite (add_course_missing req w m ms Hpost Hm). kinds_of.
    + rewrite (add_course_get req w Hpost). kinds_of.
  - destruct w as [e c t S K F L]. unfold course_details.
    destruct (remote_addr req); run;
      (destruct (load_courses e) as [[v|ex] e']; run;
       [ destruct (find_course v code) as [[found|]|ex]; run;
         [ destruct (py_truthy found); run | | ] | ]);
      norm; kinds_of.
  - destruct w as [e c t S K F L]. unfold manual_trace. run. norm. kinds_of.
  - exists []. cbn. rewrite app_nil_r. repeat split. constructor.
Qed.
